(** * data_fingerprint_try: the Streamlit page of the data-fingerprint library

    A shallow embedding of [src/data_fingerprint_try/server.py].  The page
    reads two data sources, a grouping-column string and a threshold string,
    turns the two strings into the typed arguments of the library's
    [get_data_report], and renders the report it gets back.

    Layout of the development:
    - [PyStr]: the [str] methods the page uses ([split], [strip], indexing);
    - [PyFloat]: the grammar accepted by the builtin [float] on a string;
    - [Server]: the page itself, as a script that emits the calls it makes. *)

From Stdlib Require Import ZArith NArith QArith List Ascii String Lia Bool.
From stdpp Require Import base decidable option list gmap strings.

Set Default Proof Using "Type".
Local Open Scope list_scope.

(** Exceptions the page can run into. *)
Inductive exn : Type :=
| IndexError
| ValueError
| ZeroDivisionError
| LibraryError (what : list ascii).

(** A Python expression either has a value or raises. *)
Inductive result (A : Type) : Type :=
| Ok (a : A)
| Raise (e : exn).
Arguments Ok {A} a.
Arguments Raise {A} e.

#[global] Instance result_ret : MRet result := λ A a, Ok a.
#[global] Instance result_bind : MBind result := λ A B k r,
  match r with
  | Ok a => k a
  | Raise e => Raise e
  end.

(** ** Python strings *)
Module PyStr.

(** A [str] is its sequence of code points; the model keeps the code points
    below 256, one [ascii] each. *)
Abbreviation str := (list ascii).

Definition py (s : string) : str := list_ascii_of_string s.

Definition code (c : ascii) : N := N_of_ascii c.

(** [str.isspace] on one character, for code points below 256:
    TAB..CR, FS..US, SPACE, NEL and NBSP. *)
Definition isspace (c : ascii) : bool :=
  let n := code c in
  ((9 <=? n) && (n <=? 13) || (28 <=? n) && (n <=? 32) || (n =? 133) || (n =? 160))%N.

Section Strip.
Variable p : ascii → bool.

Fixpoint lstrip_by (s : str) : str :=
  match s with
  | c :: s' => if p c then lstrip_by s' else s
  | [] => []
  end.

Definition rstrip_by (s : str) : str := rev (lstrip_by (rev s)).

Definition strip_by (s : str) : str := rstrip_by (lstrip_by s).
End Strip.

(** [s.lstrip()], [s.rstrip()] and [s.strip()] with no argument. *)
Definition lstrip : str → str := lstrip_by isspace.
Definition rstrip : str → str := rstrip_by isspace.
Definition strip : str → str := strip_by isspace.

(** [s.split(sep)] for a one-character separator: never the empty list, and
    [n] separators give [n + 1] fields. *)
Fixpoint split (sep : ascii) (s : str) : list str :=
  match s with
  | [] => [[]]
  | c :: s' =>
      if decide (c = sep) then [] :: split sep s'
      else match split sep s' with
           | w :: ws => (c :: w) :: ws
           | [] => [[c]]
           end
  end.

(** [sep.join(fields)]. *)
Fixpoint join (sep : ascii) (fields : list str) : str :=
  match fields with
  | [] => []
  | [w] => w
  | w :: ws => w ++ sep :: join sep ws
  end.

(** [l[i]]: raises [IndexError] out of range. *)
Definition getitem {A : Type} (l : list A) (i : nat) : result A :=
  match l !! i with
  | Some x => Ok x
  | None => Raise IndexError
  end.

End PyStr.
Import PyStr.

(** ** The builtin [float] applied to a string *)
Module PyFloat.

(** The number a literal denotes: not-a-number, an infinity, or the signed
    decimal [(-1)^neg * m * 10^e].  The value is kept exact; the rounding of
    the decimal to a binary64 is not part of the model. *)
Inductive pyfloat : Type :=
| Nan
| Inf (neg : bool)
| Dec (neg : bool) (m : N) (e : Z).

(** [v >= 0] on floats: false for nan, and a negative zero is not below 0. *)
Definition float_ge0 (v : pyfloat) : bool :=
  match v with
  | Nan => false
  | Inf neg => negb neg
  | Dec neg m _ => negb neg || (m =? 0)%N
  end.

(** Whitespace [float] removes around the literal: the ASCII blanks, and the
    non-ASCII spaces, which it first rewrites to a blank.  FS..US are not
    among them. *)
Definition float_space (c : ascii) : bool :=
  let n := code c in
  ((9 <=? n) && (n <=? 13) || (n =? 32) || (n =? 133) || (n =? 160))%N.

Definition digit (c : ascii) : option N :=
  let n := code c in
  if ((48 <=? n) && (n <=? 57))%N then Some (n - 48)%N else None.

(** [digit (["_"] digit)*] after a first digit: [acc] is the value read so
    far and [cnt] the number of digits. *)
Fixpoint more_digits (s : str) (acc : N) (cnt : nat) : N * nat * str :=
  match s with
  | c :: s' =>
      match digit c with
      | Some d => more_digits s' (acc * 10 + d)%N (S cnt)
      | None =>
          if decide (c = "_"%char) then
            match s' with
            | c' :: s'' =>
                match digit c' with
                | Some d => more_digits s'' (acc * 10 + d)%N (S cnt)
                | None => (acc, cnt, s)
                end
            | [] => (acc, cnt, s)
            end
          else (acc, cnt, s)
      end
  | [] => (acc, cnt, s)
  end.

(** [digitpart ::= digit (["_"] digit)*], continuing the value [acc]. *)
Definition digitpart (s : str) (acc : N) : option (N * nat * str) :=
  match s with
  | c :: s' =>
      match digit c with
      | Some d => Some (more_digits s' (acc * 10 + d)%N 1)
      | None => None
      end
  | [] => None
  end.

Definition sign (s : str) : bool * str :=
  match s with
  | c :: s' =>
      if decide (c = "-"%char) then (true, s')
      else if decide (c = "+"%char) then (false, s')
      else (false, s)
  | [] => (false, s)
  end.

(** [[("e" | "E") [sign] digitpart]] followed by the end of the literal. *)
Definition exponent (s : str) : option Z :=
  match s with
  | [] => Some 0%Z
  | c :: s' =>
      if decide (c = "e"%char ∨ c = "E"%char) then
        let '(neg, s'') := sign s' in
        match digitpart s'' 0 with
        | Some (v, _, []) => Some (if neg then - Z.of_N v else Z.of_N v)%Z
        | _ => None
        end
      else None
  end.

(** End of a number: mantissa digits [m], [k] of them after the point. *)
Definition finish (m : N) (k : nat) (s : str) : option (N * Z) :=
  match exponent s with
  | Some e => Some (m, (e - Z.of_nat k)%Z)
  | None => None
  end.

(** [floatnumber ::= ([digitpart] "." digitpart | digitpart ["."]) [exponent]]. *)
Definition floatnumber (s : str) : option (N * Z) :=
  match digitpart s 0 with
  | Some (i, _, r1) =>
      match r1 with
      | c :: r2 =>
          if decide (c = "."%char) then
            match digitpart r2 i with
            | Some (m, k, r3) => finish m k r3
            | None => finish i 0 r2
            end
          else finish i 0 r1
      | [] => finish i 0 r1
      end
  | None =>
      match s with
      | c :: r2 =>
          if decide (c = "."%char) then
            match digitpart r2 0 with
            | Some (m, k, r3) => finish m k r3
            | None => None
            end
          else None
      | [] => None
      end
  end.

Definition lower (c : ascii) : ascii :=
  let n := code c in
  if ((65 <=? n) && (n <=? 90))%N then ascii_of_N (n + 32) else c.

(** [float(s)]: blanks are dropped at both ends, then
    [[sign] (floatnumber | "inf" | "infinity" | "nan")], the words in any
    case; anything else raises [ValueError]. *)
Definition float (s : str) : result pyfloat :=
  let '(neg, r) := sign (strip_by float_space s) in
  let w := map lower r in
  if decide (w = py "inf" ∨ w = py "infinity") then Ok (Inf neg)
  else if decide (w = py "nan") then Ok Nan
  else match floatnumber r with
       | Some (m, e) => Ok (Dec neg m e)
       | None => Raise ValueError
       end.

End PyFloat.
Import PyFloat.

(** ** The page *)
Module Server.

(** Modelled from the spec: the report classes of the data-fingerprint
    library ([data_fingerprint.src.models]) are not part of this
    repository.  Section 3 of the specification lists the fields; the page
    reads [df0_length], [df1_length], [comparable_columns] and
    [column_differences]. *)
Record ColumnDifference : Type := {
  cd_column : str;
  cd_count : Z;
  cd_ratio : Q
}.

(** Modelled from the spec: a row-level entry is an aligned pair that
    differs, with the columns that differ, or a row without counterpart,
    tagged with its source. *)
Inductive RowDifference : Type :=
| PairDiffers (columns : list str)
| Unmatched (source : str).

Record DataReport : Type := {
  df0_name : str;
  df1_name : str;
  df0_length : Z;
  df1_length : Z;
  comparable_columns : list str;
  column_differences : list ColumnDifference;
  row_differences : list RowDifference
}.

(** The functions of [data_fingerprint.src.utils] the page calls on the
    report, once it has one. *)
Inductive derivation : Type :=
| Dataframe
| NumberOfRowDifferences
| RatioOfDifferencesPerSource
| ColumnDifferenceRatio.

(** What [pl.read_csv] is given: an uploaded file or a [StringIO]. *)
Inductive csv_source (UploadedFile : Type) : Type :=
| Uploaded (file : UploadedFile)
| StringIO (text : str).
Arguments Uploaded {UploadedFile} file.
Arguments StringIO {UploadedFile} text.

(** How a run of a script ends: normally, at [st.stop()], or with an
    exception nobody catches, which Streamlit renders in place of the rest
    of the page. *)
Inductive outcome (A : Type) : Type :=
| Done (a : A)
| Stop
| Fail (e : exn).
Arguments Done {A} a.
Arguments Stop {A}.
Arguments Fail {A} e.

(** [a / b] on integers. *)
Definition truediv (a b : Z) : result Q :=
  if decide (b = 0%Z) then Raise ZeroDivisionError
  else Ok (inject_Z a / inject_Z b)%Q.

(** The grouping-column text of either tab (lines 138-142 and 208-210). *)
Definition parse_grouping_columns (raw : str) : option (list str) :=
  let columns := map strip (split "," raw) in
  if decide (columns = [[]]) then None else Some columns.

(** One pass of the dict comprehension of lines 147-151 and 213-217: the
    key expression, then the value expression. *)
Definition threshold_item (threshold : str) : result (str * pyfloat) :=
  key ← getitem (split "=" threshold) 0;
  text ← getitem (split "=" threshold) 1;
  value ← float text;
  Ok (key, value).

Fixpoint dict_comprehension (thresholds : list str) (d : gmap str pyfloat)
  : result (gmap str pyfloat) :=
  match thresholds with
  | [] => Ok d
  | threshold :: rest =>
      if decide (threshold ≠ []) then
        '(key, value) ← threshold_item threshold;
        dict_comprehension rest (<[key := value]> d)
      else dict_comprehension rest d
  end.

(** The threshold text of either tab (lines 144-151 and 212-217). *)
Definition parse_thresholds (raw : str) : result (gmap str pyfloat) :=
  let thresholds := map strip (split "," raw) in
  dict_comprehension thresholds ∅.

Section Page.
(** The collaborators: polars and the data-fingerprint library. *)
Context {DataFrame UploadedFile Table Ratios : Type}.
Variable read_csv : csv_source UploadedFile → result DataFrame.
(** The report, with the messages of the warnings raised on the way. *)
Variable get_data_report :
  DataFrame → DataFrame → str → str → option (list str) →
  gmap str pyfloat → result (DataReport * list str).
Variable get_dataframe : DataReport → Table.
Variable get_ratio_of_differences_per_source : DataReport → Ratios.
Variable get_column_difference_ratio : DataReport → Ratios.
Variable get_number_of_row_differences : DataReport → Z.
(** The messages a call of one of these functions adds to the list that
    [catch_warnings] records, given the report and what the list holds
    already (the warning filters decide whether a warning raised a second
    time at the same place is recorded again). *)
Variable warns : derivation → DataReport → list str → list str.

Inductive frame_data : Type :=
| Columns (names : list str)
| ColumnDiffs (rows : list ColumnDifference)
| Rows (table : Table).

(** What a run does, in order: the Streamlit elements it renders and the
    collaborator calls it makes.  [st_metric] carries the quotient shown
    as delta before it is rounded to four decimals and formatted. *)
Inductive event : Type :=
| st_spinner (text : str)
| st_markdown (body : str)
| st_json (report : DataReport)
| st_dataframe (data : frame_data)
| st_metric (label : str) (value : Z) (delta_color : str) (delta : Q)
| st_info (body : str)
| st_bar_chart (x y : str) (data : Ratios)
| st_warning (message : str)
| st_error (body : str)
| call_read_csv (source : csv_source UploadedFile)
| call_get_data_report (df1 df2 : DataFrame) (df1_name df2_name : str)
    (grouping_columns : option (list str)) (thresholds : gmap str pyfloat)
| call_get_dataframe (report : DataReport)
| call_get_number_of_row_differences (report : DataReport)
| call_get_ratio_of_differences_per_source (report : DataReport)
| call_get_column_difference_ratio (report : DataReport).

(** A script: the events of the run and how it ended. *)
Definition script (A : Type) : Type := (list event * outcome A)%type.

#[local] Instance script_ret : MRet script := λ A a, ([], Done a).
#[local] Instance script_bind : MBind script := λ A B k m,
  match m with
  | (tr, Done a) => let '(tr', o) := k a in (tr ++ tr', o)
  | (tr, Stop) => (tr, Stop)
  | (tr, Fail e) => (tr, Fail e)
  end.

Definition emit (ev : event) : script unit := ([ev], Done tt).
Definition st_stop {A : Type} : script A := ([], Stop).
Definition eval {A : Type} (r : result A) : script A :=
  match r with
  | Ok a => ([], Done a)
  | Raise e => ([], Fail e)
  end.
(** A collaborator call: the call is recorded, then its result is used. *)
Definition call {A : Type} (ev : event) (r : result A) : script A :=
  emit ev;; eval r.

Fixpoint for_each {A : Type} (l : list A) (body : A → script unit) : script unit :=
  match l with
  | [] => mret tt
  | a :: l' => body a;; for_each l' body
  end.

Definition trace {A : Type} (m : script A) : list event := m.1.
Definition ending {A : Type} (m : script A) : outcome A := m.2.

(** Lines 63-67. *)
Definition total_rows (report : DataReport) : Z :=
  if decide (df0_length report + df1_length report > 0)%Z
  then (df0_length report + df1_length report)%Z
  else 1%Z.

(** Lines 42-101.  [w] is the list recorded by [catch_warnings]: it opens
    with the warnings of [get_data_report] and grows with those of every
    later call of the library inside the [with] block. *)
Definition get_differences (df1 df2 : DataFrame) (df1_name df2_name : str)
    (grouping_columns : option (list str)) (thresholds : gmap str pyfloat)
  : script unit :=
  emit (st_spinner (py "Generating report..."));;
  '(report, w) ← call
      (call_get_data_report df1 df2 df1_name df2_name grouping_columns thresholds)
      (get_data_report df1 df2 df1_name df2_name grouping_columns thresholds);
  emit (st_markdown (py "### Raw Report"));;
  emit (st_json report);;
  emit (st_markdown (py "### Comparable columns"));;
  emit (st_dataframe (Columns (comparable_columns report)));;
  emit (st_markdown (py "### Column differences"));;
  emit (st_dataframe (ColumnDiffs (column_differences report)));;
  emit (st_markdown (py "### Row Differences"));;
  table ← call (call_get_dataframe report) (Ok (get_dataframe report));
  let w := w ++ warns Dataframe report w in
  emit (st_dataframe (Rows table));;
  emit (st_markdown (py "### Number of row difference"));;
  number_of_differences ← call (call_get_number_of_row_differences report)
      (Ok (get_number_of_row_differences report));
  let w := w ++ warns NumberOfRowDifferences report w in
  again ← call (call_get_number_of_row_differences report)
      (Ok (get_number_of_row_differences report));
  let w := w ++ warns NumberOfRowDifferences report w in
  quotient ← eval (truediv again (total_rows report));
  emit (st_metric (py "Number of Row Differences") number_of_differences
          (if decide (number_of_differences > 0)%Z then py "inverse" else py "normal")
          (quotient * 100)%Q);;
  emit (st_info (py "Delta is defined by dividing the number of row differences by the number of rows in the both data sources."));;
  emit (st_markdown (py "### Ratio of Row Difference Per Source"));;
  per_source ← call (call_get_ratio_of_differences_per_source report)
      (Ok (get_ratio_of_differences_per_source report));
  let w := w ++ warns RatioOfDifferencesPerSource report w in
  emit (st_bar_chart (py "source") (py "ratio_of_differences") per_source);;
  match grouping_columns with
  | Some _ =>
      emit (st_markdown (py "### Ratio of Row Difference Per Column"));;
      per_column ← call (call_get_column_difference_ratio report)
          (Ok (get_column_difference_ratio report));
      let w := w ++ warns ColumnDifferenceRatio report w in
      emit (st_bar_chart (py "column") (py "ratio_of_differences") per_column);;
      for_each w (λ warning, emit (st_warning warning))
  | None => mret tt
  end.

(** The widgets of the upload tab, by the values they return. *)
Record upload_form : Type := {
  df0_name_upload : str;
  df0_uploader : option UploadedFile;
  df1_name_upload : str;
  df1_uploader : option UploadedFile;
  grouping_columns_upload : str;
  thresholds_upload : str;
  calculate_differences_upload : bool
}.

(** Lines 137-170. *)
Definition upload_tab (f : upload_form) : script unit :=
  if calculate_differences_upload f then
    let grouping := parse_grouping_columns (grouping_columns_upload f) in
    thresholds ← eval (parse_thresholds (thresholds_upload f));
    match df0_uploader f, df1_uploader f with
    | Some file0, Some file1 =>
        if decide (df0_name_upload f = [] ∨ df1_name_upload f = []) then
          emit (st_error (py "Please enter names for both data sources"));;
          st_stop
        else
          df1_data ← call (call_read_csv (Uploaded file0)) (read_csv (Uploaded file0));
          df2_data ← call (call_read_csv (Uploaded file1)) (read_csv (Uploaded file1));
          get_differences df1_data df2_data (df0_name_upload f)
            (df1_name_upload f) grouping thresholds
    | _, _ =>
        emit (st_error (py "Please upload both data sources"));;
        st_stop
    end
  else mret tt.

(** The widgets of the example tab. *)
Record example_form : Type := {
  df0_name_raw : str;
  df0_data_raw : str;
  df1_name_raw : str;
  df1_data_raw : str;
  grouping_columns_raw : str;
  thresholds_raw : str;
  calculate_differences_raw : bool
}.

(** Lines 207-228. *)
Definition example_tab (f : example_form) : script unit :=
  if calculate_differences_raw f then
    let grouping := parse_grouping_columns (grouping_columns_raw f) in
    thresholds ← eval (parse_thresholds (thresholds_raw f));
    df1_data ← call (call_read_csv (StringIO (df0_data_raw f)))
                    (read_csv (StringIO (df0_data_raw f)));
    df2_data ← call (call_read_csv (StringIO (df1_data_raw f)))
                    (read_csv (StringIO (df1_data_raw f)));
    get_differences df1_data df2_data (df0_name_raw f) (df1_name_raw f)
      grouping thresholds
  else mret tt.

(** One run of the page: the tabs are filled one after the other. *)
Definition page (u : upload_form) (x : example_form) : script unit :=
  upload_tab u;; example_tab x.

End Page.
End Server.
Import Server.

Arguments py : simpl never.
Arguments truediv : simpl never.
Arguments total_rows : simpl never.

(** ** Vocabulary of the statements *)

(** The text of one threshold entry, [column=value]. *)
Definition entry_text (column value : str) : str := column ++ "="%char :: value.

(** The dictionary holding the given items, a later item replacing an
    earlier one with the same key. *)
Definition as_dict (items : list (str * pyfloat)) : gmap str pyfloat :=
  foldl (λ d kv, <[kv.1 := kv.2]> d) ∅ items.

(** The entries the dict comprehension goes through: the stripped fields
    of the text, the empty ones skipped. *)
Definition entries_of (raw : str) : list str :=
  filter (λ e, e ≠ []) (map strip (split "," raw)).

Definition missing_equals (entry : str) : Prop := "="%char ∉ entry.

(** The right-hand side of an entry, the field [float] is applied to. *)
Definition right_hand_side (entry text : str) : Prop :=
  split "=" entry !! 1 = Some text.

Definition not_numeric (text : str) : Prop := ∀ x, float text ≠ Ok x.

Definition blank (raw : str) : Prop := Forall (λ c, isspace c = true) raw.

(** A threshold entry as the user writes it, with the number its value
    denotes. *)
Record threshold_entry : Type := {
  entry_column : str;
  entry_value : str;
  entry_number : pyfloat
}.

Definition well_formed (e : threshold_entry) : Prop :=
  (","%char ∉ entry_column e) ∧ ("="%char ∉ entry_column e) ∧
  (","%char ∉ entry_value e) ∧ ("="%char ∉ entry_value e) ∧
  float (entry_value e) = Ok (entry_number e).

(** The comma-separated text of the entries. *)
Definition threshold_text (entries : list threshold_entry) : str :=
  join "," (map (λ e, entry_text (entry_column e) (entry_value e)) entries).

(** The items the entries stand for: the column name, without the blanks
    that follow the comma before it, and the number. *)
Definition threshold_items (entries : list threshold_entry) : list (str * pyfloat) :=
  map (λ e, (lstrip (entry_column e), entry_number e)) entries.

(** The upload tab has both files and both names. *)
Definition upload_ready {UploadedFile : Type} (f : @upload_form UploadedFile) : Prop :=
  is_Some (df0_uploader f) ∧ is_Some (df1_uploader f) ∧
  df0_name_upload f ≠ [] ∧ df1_name_upload f ≠ [].

#[global] Instance upload_ready_dec {UploadedFile : Type}
  (f : @upload_form UploadedFile) : Decision (upload_ready f).
Proof. unfold upload_ready. apply _. Defined.

(** The delta of the metric: [n] row differences over [total_rows], in
    percent. *)
Definition delta_percent (n : Z) (report : DataReport) : Q :=
  (inject_Z n / inject_Z (total_rows report) * 100)%Q.

(** What [catch_warnings] holds when line 99 is reached: the warnings [w]
    of [get_data_report], then those of the later calls, in order
    ([get_number_of_row_differences] is called twice). *)
Definition recorded (warns : derivation → DataReport → list str → list str)
    (report : DataReport) (w : list str) : list str :=
  let w := w ++ warns Dataframe report w in
  let w := w ++ warns NumberOfRowDifferences report w in
  let w := w ++ warns NumberOfRowDifferences report w in
  let w := w ++ warns RatioOfDifferencesPerSource report w in
  w ++ warns ColumnDifferenceRatio report w.

(** The text of an entry after its first [=], when it has one. *)
Definition text_after_equals (entry : str) : str :=
  join "=" (tail (split "=" entry)).

Section Rendering.
Context {DataFrame UploadedFile Table Ratios : Type}.
Variable get_dataframe : DataReport → Table.
Variable get_ratio_of_differences_per_source : DataReport → Ratios.
Variable get_column_difference_ratio : DataReport → Ratios.
Variable get_number_of_row_differences : DataReport → Z.

(** What lines 49-86 add to the run, for a given report. *)
Definition report_part (report : DataReport)
  : list (@event DataFrame UploadedFile Table Ratios) :=
  [ st_markdown (py "### Raw Report");
    st_json report;
    st_markdown (py "### Comparable columns");
    st_dataframe (Columns (comparable_columns report));
    st_markdown (py "### Column differences");
    st_dataframe (ColumnDiffs (column_differences report));
    st_markdown (py "### Row Differences");
    call_get_dataframe report;
    st_dataframe (Rows (get_dataframe report));
    st_markdown (py "### Number of row difference");
    call_get_number_of_row_differences report;
    call_get_number_of_row_differences report;
    st_metric (py "Number of Row Differences")
      (get_number_of_row_differences report)
      (if decide (get_number_of_row_differences report > 0)%Z
       then py "inverse" else py "normal")
      (delta_percent (get_number_of_row_differences report) report);
    st_info (py "Delta is defined by dividing the number of row differences by the number of rows in the both data sources.");
    st_markdown (py "### Ratio of Row Difference Per Source");
    call_get_ratio_of_differences_per_source report;
    st_bar_chart (py "source") (py "ratio_of_differences")
      (get_ratio_of_differences_per_source report) ].

(** What lines 88-101 add when grouping columns were given and [w] was
    recorded. *)
Definition grouping_part (report : DataReport) (w : list str)
  : list (@event DataFrame UploadedFile Table Ratios) :=
  [ st_markdown (py "### Ratio of Row Difference Per Column");
    call_get_column_difference_ratio report;
    st_bar_chart (py "column") (py "ratio_of_differences")
      (get_column_difference_ratio report) ]
  ++ map st_warning w.
End Rendering.

(** An entry the dict comprehension can turn into an item: it has a second
    field and [float] reads a number from it. *)
Definition accepted_entry (entry : str) : Prop :=
  ∃ text x, right_hand_side entry text ∧ float text = Ok x.

(** The number of commas of a text. *)
Definition commas (raw : str) : nat := length (filter (λ c, c = ","%char) raw).

Section Observing.
Context {DataFrame UploadedFile Table Ratios : Type}.

(** The messages rendered by [st.warning] in a run, in order. *)
Definition warnings_shown (tr : list (@event DataFrame UploadedFile Table Ratios))
  : list str :=
  omap (λ ev, match ev with st_warning message => Some message | _ => None end) tr.

(** The calls of [get_data_report] in a run, by their arguments. *)
Definition report_calls (tr : list (@event DataFrame UploadedFile Table Ratios))
  : list (DataFrame * DataFrame * str * str * option (list str) * gmap str pyfloat) :=
  omap (λ ev, match ev with
              | call_get_data_report a b c d g th => Some (a, b, c, d, g, th)
              | _ => None
              end) tr.

(** The sources [pl.read_csv] was asked to read in a run, in order. *)
Definition csv_reads (tr : list (@event DataFrame UploadedFile Table Ratios))
  : list (csv_source UploadedFile) :=
  omap (λ ev, match ev with call_read_csv source => Some source | _ => None end) tr.
End Observing.

(** A small instance of the collaborators, to run the page on: a data frame
    is its text, the report counts the lines that differ and warns about
    the first line when the two headers differ. *)
Module Sample.

Definition lines (text : str) : list str := split "010" text.

Definition read_csv (source : csv_source str) : result str :=
  match source with
  | Uploaded file => Ok file
  | StringIO text => if decide (text = []) then Raise (LibraryError (py "empty CSV")) else Ok text
  end.

Definition differing (a b : list str) : list RowDifference :=
  omap (λ ab, if decide (ab.1 = ab.2) then None else Some (PairDiffers [ab.1])) (zip a b)
  ++ map (λ _, Unmatched (py "df0")) (drop (length b) a)
  ++ map (λ _, Unmatched (py "df1")) (drop (length a) b).

Definition get_data_report (df1 df2 : str) (df1_name df2_name : str)
    (grouping_columns : option (list str)) (thresholds : gmap str pyfloat)
  : result (DataReport * list str) :=
  let rows1 := tail (lines df1) in
  let rows2 := tail (lines df2) in
  if decide (df1 = [] ∨ df2 = []) then Raise (LibraryError (py "no columns"))
  else Ok ({| df0_name := df1_name; df1_name := df2_name;
              df0_length := Z.of_nat (length rows1);
              df1_length := Z.of_nat (length rows2);
              comparable_columns := [];
              column_differences := [];
              row_differences := differing rows1 rows2 |},
           if decide (head (lines df1) = head (lines df2)) then []
           else [py "columns differ between the sources"]).

Definition get_dataframe (report : DataReport) : list RowDifference :=
  row_differences report.

Definition get_ratio (report : DataReport) : list (str * Q) := [].

Definition get_number_of_row_differences (report : DataReport) : Z :=
  Z.of_nat (length (row_differences report)).

(** Counting the row differences warns, once in a block: a second call
    adds nothing to a list that holds the message already. *)
Definition warns (d : derivation) (report : DataReport) (w : list str) : list str :=
  match d with
  | NumberOfRowDifferences =>
      if decide (py "row differences were counted" ∈ w) then []
      else [py "row differences were counted"]
  | _ => []
  end.

(** Two lines of CSV: a header and one row. *)
Definition csv (header row : string) : str := py header ++ "010"%char :: py row.

(** The example tab, filled in and its button pressed. *)
Definition example (name0 name1 grouping thresholds : string) : example_form :=
  {| df0_name_raw := py name0; df0_data_raw := csv "id,val" "1,10";
     df1_name_raw := py name1; df1_data_raw := csv "id,other" "1,11";
     grouping_columns_raw := py grouping; thresholds_raw := py thresholds;
     calculate_differences_raw := true |}.

(** The upload tab with its button pressed and the second file missing. *)
Definition upload_without_file (thresholds : string) : upload_form :=
  {| df0_name_upload := py "old"; df0_uploader := Some (csv "id,val" "1,10");
     df1_name_upload := py "new"; df1_uploader := None;
     grouping_columns_upload := []; thresholds_upload := py thresholds;
     calculate_differences_upload := true |}.

(** The two pages run on these collaborators. *)
Definition run_differences :=
  get_differences get_data_report get_dataframe get_ratio get_ratio
    get_number_of_row_differences warns (UploadedFile := str).
Definition run_example : example_form → script unit :=
  example_tab read_csv get_data_report get_dataframe get_ratio get_ratio
    get_number_of_row_differences warns.
Definition run_upload : upload_form → script unit :=
  upload_tab read_csv get_data_report get_dataframe get_ratio get_ratio
    get_number_of_row_differences warns.

(** A reader that also rejects an empty uploaded file. *)
Definition read_csv_strict (source : csv_source str) : result str :=
  match source with
  | Uploaded text | StringIO text =>
      if decide (text = []) then Raise (LibraryError (py "empty CSV")) else Ok text
  end.

(** The example tab pressed with the first text left empty. *)
Definition example_without_data : example_form :=
  {| df0_name_raw := py "old"; df0_data_raw := [];
     df1_name_raw := py "new"; df1_data_raw := csv "id,val" "1,10";
     grouping_columns_raw := []; thresholds_raw := [];
     calculate_differences_raw := true |}.

(** The upload tab pressed with both names and an empty first file. *)
Definition upload_empty_file : upload_form :=
  {| df0_name_upload := py "old"; df0_uploader := Some [];
     df1_name_upload := py "new"; df1_uploader := Some (csv "id,val" "1,10");
     grouping_columns_upload := []; thresholds_upload := [];
     calculate_differences_upload := true |}.

End Sample.

Ltac by_char c :=
  destruct c as [[] [] [] [] [] [] [] []]; vm_compute; try done; try congruence.

Ltac found := apply list_elem_of_In; simpl; repeat (first [left; reflexivity | right]).

Ltac decided := apply (bool_decide_unpack _); vm_compute; exact I.

(** * Properties *)

(** ** Stripping and splitting *)
Section StripFacts.
Variable p : ascii → bool.

Lemma lstrip_by_all (a s : str) :
  Forall (λ c, p c = true) a → lstrip_by p (a ++ s) = lstrip_by p s.
Proof.
  induction 1 as [|c a Hc _ IH]; simpl; [done|]. by rewrite Hc.
Qed.

Lemma lstrip_by_stop (a : str) (x : ascii) (r : str) :
  p x = false → lstrip_by p (a ++ x :: r) = lstrip_by p a ++ x :: r.
Proof.
  intros Hx. induction a as [|c a IH]; simpl.
  - by rewrite Hx.
  - destruct (p c); [apply IH | done].
Qed.

Lemma lstrip_by_split (s : str) :
  ∃ a, s = a ++ lstrip_by p s ∧ Forall (λ c, p c = true) a.
Proof.
  induction s as [|c s (a & Ha & Hall)]; simpl.
  - by exists [].
  - destruct (p c) eqn:Hc.
    + exists (c :: a). split; [simpl; congruence | by constructor].
    + by exists [].
Qed.

Lemma rstrip_by_all (s b : str) :
  Forall (λ c, p c = true) b → rstrip_by p (s ++ b) = rstrip_by p s.
Proof.
  intros Hb. unfold rstrip_by. rewrite rev_app_distr, lstrip_by_all; [done|].
  by apply Forall_rev.
Qed.

Lemma rstrip_by_stop (a : str) (x : ascii) (r : str) :
  p x = false → rstrip_by p (a ++ x :: r) = a ++ x :: rstrip_by p r.
Proof.
  intros Hx. unfold rstrip_by.
  rewrite rev_app_distr. simpl. rewrite <- app_assoc. simpl.
  rewrite lstrip_by_stop by done.
  rewrite rev_app_distr. simpl. rewrite rev_involutive.
  by rewrite <- app_assoc.
Qed.

Lemma rstrip_by_split (s : str) :
  ∃ b, s = rstrip_by p s ++ b ∧ Forall (λ c, p c = true) b.
Proof.
  destruct (lstrip_by_split (rev s)) as (a & Ha & Hall).
  exists (rev a). split; [|by apply Forall_rev].
  unfold rstrip_by. rewrite <- rev_app_distr, <- Ha. by rewrite rev_involutive.
Qed.

Lemma strip_by_stop (a : str) (x : ascii) (r : str) :
  p x = false →
  strip_by p (a ++ x :: r) = lstrip_by p a ++ x :: rstrip_by p r.
Proof.
  intros Hx. unfold strip_by.
  by rewrite lstrip_by_stop, rstrip_by_stop.
Qed.

(** A text without blanks is what stripping leaves of it, however many
    blanks surround it. *)
Lemma rstrip_by_clean (a t b : str) :
  Forall (λ c, p c = true) b → t ≠ [] → Forall (λ c, p c = false) t →
  rstrip_by p (a ++ t ++ b) = a ++ t.
Proof.
  intros Hb Ht Hall. rewrite app_assoc, rstrip_by_all by done.
  destruct t as [|y t' _] using rev_ind; [done|].
  rewrite Forall_app, Forall_singleton in Hall. destruct Hall as [_ Hy].
  rewrite app_assoc. rewrite rstrip_by_stop by done.
  unfold rstrip_by. simpl. by rewrite <- app_assoc.
Qed.

Lemma strip_by_clean (a t b : str) :
  Forall (λ c, p c = true) a → Forall (λ c, p c = true) b →
  t ≠ [] → Forall (λ c, p c = false) t →
  strip_by p (a ++ t ++ b) = t.
Proof.
  intros Ha Hb Ht Hall. unfold strip_by. rewrite lstrip_by_all by done.
  assert (lstrip_by p (t ++ b) = t ++ b) as ->.
  { destruct t as [|x t']; [done|]. apply Forall_cons in Hall as [Hx _].
    simpl. by rewrite Hx. }
  by apply (rstrip_by_clean []).
Qed.

Lemma strip_by_blank (s : str) :
  Forall (λ c, p c = true) s → strip_by p s = [].
Proof.
  intros Hs. unfold strip_by.
  rewrite <- (app_nil_r s), lstrip_by_all by done. done.
Qed.

Lemma strip_by_nil_blank (s : str) :
  strip_by p s = [] → Forall (λ c, p c = true) s.
Proof.
  intros Hs.
  destruct (lstrip_by_split s) as (a & Ha & Hall).
  destruct (rstrip_by_split (lstrip_by p s)) as (b & Hb & Hallb).
  unfold strip_by in Hs. rewrite Hs in Hb. simpl in Hb.
  rewrite Ha, Hb. by apply Forall_app.
Qed.
End StripFacts.

Lemma elem_of_map {A B : Type} (f : A → B) (l : list A) (x : B) :
  x ∈ map f l ↔ ∃ y, x = f y ∧ y ∈ l.
Proof.
  rewrite list_elem_of_In, in_map_iff.
  split; intros (y & Hy & Hin); exists y; by rewrite ?list_elem_of_In in *.
Qed.

Lemma split_not_nil (sep : ascii) (s : str) : split sep s ≠ [].
Proof.
  induction s as [|c s IH]; simpl; [done|].
  case_decide; [done|]. by destruct (split sep s).
Qed.

Lemma split_no_sep (sep : ascii) (s : str) : sep ∉ s → split sep s = [s].
Proof.
  induction s as [|c s IH]; simpl; [done|].
  intros Hs. apply not_elem_of_cons in Hs as [Hc Hs].
  rewrite decide_False by congruence. by rewrite IH.
Qed.

Lemma split_app (sep : ascii) (a b : str) :
  sep ∉ a → split sep (a ++ sep :: b) = a :: split sep b.
Proof.
  induction a as [|c a IH]; simpl; intros Ha.
  - by rewrite decide_True.
  - apply not_elem_of_cons in Ha as [Hc Ha].
    rewrite decide_False by congruence. by rewrite IH.
Qed.

Lemma split_join (sep : ascii) (fields : list str) :
  fields ≠ [] → Forall (λ w, sep ∉ w) fields →
  split sep (join sep fields) = fields.
Proof.
  induction fields as [|w ws IH]; [done|].
  intros _ Hall. apply Forall_cons in Hall as [Hw Hws].
  destruct ws as [|w' ws].
  - simpl. by apply split_no_sep.
  - change (join sep (w :: w' :: ws)) with (w ++ sep :: join sep (w' :: ws)).
    rewrite split_app by done. by rewrite IH.
Qed.

(** ** The text [float] accepts *)

Lemma float_space_isspace (c : ascii) : float_space c = true → isspace c = true.
Proof. by_char c. Qed.

Lemma isspace_float_space (c : ascii) : isspace c = false → float_space c = false.
Proof. by_char c. Qed.

Lemma digit_not_space (c : ascii) (d : N) : digit c = Some d → isspace c = false.
Proof. by_char c. Qed.

Lemma lower_not_space (c : ascii) : isspace (lower c) = false → isspace c = false.
Proof. by_char c. Qed.

Lemma map_lower_not_space (r : str) :
  Forall (λ c, isspace c = false) (map lower r) → Forall (λ c, isspace c = false) r.
Proof.
  induction r as [|c r IH]; simpl; [done|].
  intros [Hc Hr]%Forall_cons. constructor; [by apply lower_not_space | by apply IH].
Qed.

Lemma more_digits_consumed (n : nat) :
  ∀ (s : str) acc cnt v k rest,
    length s ≤ n → more_digits s acc cnt = (v, k, rest) →
    ∃ pre, s = pre ++ rest ∧ Forall (λ c, isspace c = false) pre.
Proof.
  induction n as [|n IH]; intros s acc cnt v k rest Hlen H.
  { destruct s; [|simpl in Hlen; lia]. simpl in H. exists []. by simplify_eq. }
  destruct s as [|c s']; simpl in H.
  { exists []. by simplify_eq. }
  simpl in Hlen. destruct (digit c) eqn:Hd.
  - apply IH in H as (pre & -> & Hpre); [|lia].
    exists (c :: pre). split; [done|]. constructor; [|done]. by eapply digit_not_space.
  - case_decide as Hc; [|exists []; by simplify_eq].
    destruct s' as [|c' s'']; [exists []; by simplify_eq|].
    destruct (digit c') eqn:Hd'; [|exists []; by simplify_eq].
    simpl in Hlen. apply IH in H as (pre & -> & Hpre); [|lia].
    exists (c :: c' :: pre). split; [done|].
    constructor; [by subst c|]. constructor; [|done]. by eapply digit_not_space.
Qed.

Lemma digitpart_consumed (s : str) acc v k rest :
  digitpart s acc = Some (v, k, rest) →
  ∃ c pre, s = c :: pre ++ rest ∧ Forall (λ c, isspace c = false) (c :: pre).
Proof.
  destruct s as [|c s']; simpl; [done|].
  destruct (digit c) eqn:Hd; [|done]. intros [= H].
  apply (more_digits_consumed (length s')) in H as (pre & -> & Hpre); [|done].
  exists c, pre. split; [done|]. constructor; [|done]. by eapply digit_not_space.
Qed.

Lemma sign_consumed (s : str) neg r :
  sign s = (neg, r) →
  ∃ pre, s = pre ++ r ∧ Forall (λ c, isspace c = false) pre.
Proof.
  destruct s as [|c s']; simpl.
  - intros [= _ <-]. by exists [].
  - repeat case_decide; intros [= _ <-]; subst;
      first [ by exists [] | eexists [_]; split; [done|]; by repeat constructor ].
Qed.

Lemma exponent_text (s : str) e :
  exponent s = Some e → Forall (λ c, isspace c = false) s.
Proof.
  destruct s as [|c s']; simpl; [done|].
  case_decide as Hc; [|done].
  destruct (sign s') as [neg s''] eqn:Hs.
  destruct (digitpart s'' 0) as [[[v k] rest]|] eqn:Hd; [|done].
  destruct rest; [|done]. intros _.
  apply sign_consumed in Hs as (pre & -> & Hpre).
  apply digitpart_consumed in Hd as (c' & pre' & -> & Hpre').
  rewrite app_nil_r. constructor; [by destruct Hc; subst c|].
  by apply Forall_app.
Qed.

Lemma finish_text m k (s : str) r :
  finish m k s = Some r → Forall (λ c, isspace c = false) s.
Proof.
  unfold finish. destruct (exponent s) eqn:He; [|done].
  intros _. by eapply exponent_text.
Qed.

Lemma floatnumber_text (s : str) r :
  floatnumber s = Some r → s ≠ [] ∧ Forall (λ c, isspace c = false) s.
Proof.
  unfold floatnumber.
  destruct (digitpart s 0) as [[[i k] r1]|] eqn:Hd.
  - apply digitpart_consumed in Hd as (c & pre & -> & Hpre).
    intros H. split; [done|].
    change (c :: pre ++ r1) with ((c :: pre) ++ r1). apply Forall_app. split; [done|].
    destruct r1 as [|c1 r2]; [done|].
    case_decide as Hc; [|by eapply finish_text].
    constructor; [by subst c1|].
    destruct (digitpart r2 i) as [[[m k'] r3]|] eqn:Hd2; [|by eapply finish_text].
    apply digitpart_consumed in Hd2 as (c2 & pre2 & -> & Hpre2).
    change (c2 :: pre2 ++ r3) with ((c2 :: pre2) ++ r3). apply Forall_app.
    split; [done | by eapply finish_text].
  - destruct s as [|c r2]; [done|].
    case_decide as Hc; [|done].
    destruct (digitpart r2 0) as [[[m k'] r3]|] eqn:Hd2; [|done].
    intros H. split; [done|]. constructor; [by subst c|].
    apply digitpart_consumed in Hd2 as (c2 & pre2 & -> & Hpre2).
    change (c2 :: pre2 ++ r3) with ((c2 :: pre2) ++ r3). apply Forall_app.
    split; [done | by eapply finish_text].
Qed.

(** What [float] parses, once the blanks around it are gone, is not empty
    and holds no blank of either kind. *)
Lemma float_text (s : str) (x : pyfloat) :
  float s = Ok x →
  strip_by float_space s ≠ [] ∧
  Forall (λ c, isspace c = false) (strip_by float_space s).
Proof.
  unfold float.
  destruct (sign (strip_by float_space s)) as [neg r] eqn:Hs.
  apply sign_consumed in Hs as (pre & -> & Hpre).
  intros H.
  assert (r ≠ [] ∧ Forall (λ c, isspace c = false) r) as [Hr Hall].
  { case_decide as Hinf; [|case_decide as Hnan].
    - split; [by destruct Hinf; destruct r|].
      apply map_lower_not_space.
      destruct Hinf as [-> | ->]; vm_compute; by repeat constructor.
    - split; [by destruct r|].
      apply map_lower_not_space. rewrite Hnan. vm_compute. by repeat constructor.
    - destruct (floatnumber r) as [[m e]|] eqn:Hf; [|done].
      by eapply floatnumber_text. }
  split; [by destruct pre, r | by apply Forall_app].
Qed.

(** Stripping the text first, as the page does with a whole entry, does not
    change the number [float] reads from it. *)
Lemma float_rstrip (s : str) (x : pyfloat) :
  float s = Ok x → float (rstrip s) = Ok x.
Proof.
  intros H. destruct (float_text s x H) as [Hne Hall].
  assert (strip_by float_space (rstrip s) = strip_by float_space s) as Heq.
  { destruct (lstrip_by_split float_space s) as (a & Ha & Hfa).
    destruct (rstrip_by_split float_space (lstrip_by float_space s))
      as (b & Hb & Hfb).
    fold (strip_by float_space s) in Hb.
    set (t := strip_by float_space s) in *.
    assert (s = a ++ t ++ b) as Hs by congruence.
    assert (rstrip s = a ++ t) as ->.
    { rewrite Hs at 1. apply rstrip_by_clean; [|done..].
      eapply Forall_impl; [exact Hfb|]. apply float_space_isspace. }
    rewrite <- (app_nil_r t) at 1. apply strip_by_clean; [done|done|done|].
    eapply Forall_impl; [exact Hall|]. apply isspace_float_space. }
  unfold float in *. by rewrite Heq.
Qed.

(** ** The threshold text *)

Lemma float_raises (s : str) (e : exn) : float s = Raise e → e = ValueError.
Proof.
  unfold float. destruct (sign _) as [neg r].
  repeat case_decide; try done.
  destruct (floatnumber r) as [[m k]|]; [done|]. by intros [= <-].
Qed.

Lemma threshold_item_fields (e k v : str) (more : list str) :
  split "=" e = k :: v :: more →
  threshold_item e = x ← float v; Ok (k, x).
Proof. unfold threshold_item, getitem. by intros ->. Qed.

Lemma threshold_item_inv (e k : str) (x : pyfloat) :
  threshold_item e = Ok (k, x) ↔
  split "=" e !! 0 = Some k ∧ ∃ text, right_hand_side e text ∧ float text = Ok x.
Proof.
  unfold threshold_item, getitem, right_hand_side.
  destruct (split "=" e) as [|k' [|v more]]; simpl.
  - split; [done | by intros [? _]].
  - split; [done | by intros [_ (text & ? & _)]].
  - destruct (float v) as [y|err] eqn:Hv; simpl.
    + split.
      * intros [= -> ->]. eauto.
      * intros [[= ->] (text & [= <-] & Hf)]. congruence.
    + split; [done|]. intros [_ (text & [= <-] & Hf)]. congruence.
Qed.

Lemma threshold_item_missing (e : str) :
  missing_equals e → threshold_item e = Raise IndexError.
Proof.
  intros He. unfold threshold_item, getitem. by rewrite (split_no_sep _ _ He).
Qed.

Lemma threshold_item_not_numeric (e text : str) :
  right_hand_side e text → not_numeric text → threshold_item e = Raise ValueError.
Proof.
  unfold right_hand_side, threshold_item, getitem. intros Ht Hn.
  destruct (split "=" e) as [|k [|v more]]; simplify_eq/=.
  destruct (float text) as [x|err] eqn:Hf; [by destruct (Hn x)|].
  by rewrite (float_raises _ _ Hf).
Qed.

Lemma dict_comprehension_app (l1 l2 : list str) (d : gmap str pyfloat) :
  dict_comprehension (l1 ++ l2) d = dict_comprehension l1 d ≫= dict_comprehension l2.
Proof.
  revert d. induction l1 as [|e l1 IH]; intros d; simpl; [done|].
  case_decide; [|apply IH].
  destruct (threshold_item e) as [[k v]|err]; simpl; [apply IH | done].
Qed.

Lemma dict_comprehension_raise (l : list str) (d : gmap str pyfloat) (e : str) (err : exn) :
  e ∈ l → e ≠ [] → threshold_item e = Raise err →
  ∃ err', dict_comprehension l d = Raise err'.
Proof.
  intros Hin Hne Hraise. revert d.
  induction l as [|e' l IH]; intros d; [by apply elem_of_nil in Hin|].
  simpl. apply elem_of_cons in Hin as [<- | Hin].
  - rewrite decide_True by done. rewrite Hraise. by eexists.
  - case_decide; [|by apply IH].
    destruct (threshold_item e') as [[k v]|err0]; simpl; [by apply IH | by eexists].
Qed.

Lemma dict_comprehension_items (l : list str) (items : list (str * pyfloat))
    (d : gmap str pyfloat) :
  Forall2 (λ e kv, e ≠ [] ∧ threshold_item e = Ok kv) l items →
  dict_comprehension l d = Ok (foldl (λ d kv, <[kv.1 := kv.2]> d) d items).
Proof.
  intros H. revert d. induction H as [|e [k v] l items [Hne Hi] _ IH]; intros d; [done|].
  simpl. rewrite decide_True by done. rewrite Hi. simpl. apply IH.
Qed.

Lemma dict_comprehension_lookup (l : list str) (d m : gmap str pyfloat) (k : str) (v : pyfloat) :
  dict_comprehension l d = Ok m → m !! k = Some v →
  d !! k = Some v ∨ ∃ e, e ∈ l ∧ e ≠ [] ∧ threshold_item e = Ok (k, v).
Proof.
  revert d. induction l as [|e l IH]; intros d; simpl.
  - intros [= ->]. by left.
  - case_decide as Hne.
    + destruct (threshold_item e) as [[k' v']|err] eqn:Hi; simpl; [|done].
      intros Hm Hk. destruct (IH _ Hm Hk) as [Hd | (e' & Hin & Hne' & Hi')].
      * destruct (decide (k' = k)) as [->|Hkk].
        -- rewrite lookup_insert_eq in Hd. simplify_eq.
           right. exists e. split; [apply elem_of_cons; by left | done].
        -- rewrite lookup_insert_ne in Hd by done. by left.
      * right. exists e'. split; [apply elem_of_cons; by right | done].
    + intros Hm Hk. destruct (IH _ Hm Hk) as [Hd | (e' & Hin & Hne' & Hi')]; [by left|].
      right. exists e'. split; [apply elem_of_cons; by right | done].
Qed.

(** The last entry for a key decides its value. *)
Lemma dict_comprehension_last (l1 l2 : list str) (d m : gmap str pyfloat)
    (e k : str) (v : pyfloat) :
  e ≠ [] → threshold_item e = Ok (k, v) →
  (∀ e' v', e' ∈ l2 → e' ≠ [] → threshold_item e' ≠ Ok (k, v')) →
  dict_comprehension (l1 ++ e :: l2) d = Ok m → m !! k = Some v.
Proof.
  intros Hne Hi Hlater. rewrite dict_comprehension_app.
  destruct (dict_comprehension l1 d) as [d1|err]; simpl; [|done].
  rewrite decide_True by done. rewrite Hi. simpl.
  assert (∀ d', d' !! k = Some v → dict_comprehension l2 d' = Ok m → m !! k = Some v) as Hkeep.
  { clear d d1. induction l2 as [|e2 l2 IH]; intros d' Hd'; simpl.
    - by intros [= <-].
    - case_decide as Hne2.
      + destruct (threshold_item e2) as [[k2 v2]|err] eqn:Hi2; simpl; [|done].
        apply IH.
        * intros e' v' Hin. apply Hlater. apply elem_of_cons. by right.
        * rewrite lookup_insert_ne; [done|]. intros ->.
          eapply Hlater; [|exact Hne2|exact Hi2]. apply elem_of_cons. by left.
      + apply IH; [|done]. intros e' v' Hin. apply Hlater. apply elem_of_cons. by right. }
  apply Hkeep. apply lookup_insert_eq.
Qed.

(** A stripped entry [column=value...]: the blanks before the column and
    after the last field are gone, the rest is as written. *)
Lemma strip_entry (column tail : str) :
  strip (entry_text column tail) = entry_text (lstrip column) (rstrip tail).
Proof. unfold strip, entry_text. by rewrite strip_by_stop. Qed.

Lemma lstrip_by_elem (p : ascii → bool) (c : ascii) (s : str) :
  c ∈ lstrip_by p s → c ∈ s.
Proof.
  destruct (lstrip_by_split p s) as (a & Ha & _). intros Hc.
  rewrite Ha. apply elem_of_app. by right.
Qed.

Lemma rstrip_by_elem (p : ascii → bool) (c : ascii) (s : str) :
  c ∈ rstrip_by p s → c ∈ s.
Proof.
  destruct (rstrip_by_split p s) as (b & Hb & _). intros Hc.
  rewrite Hb. apply elem_of_app. by left.
Qed.

(** An entry [column=value] with a numeric value gives the item
    [(column, float(value))], whatever follows a second [=]. *)
Lemma threshold_item_entry (column value : str) (x : pyfloat) :
  "="%char ∉ column → "="%char ∉ value → float value = Ok x →
  strip (entry_text column value) ≠ [] ∧
  threshold_item (strip (entry_text column value)) = Ok (lstrip column, x).
Proof.
  intros Hc Hv Hx. rewrite strip_entry. split; [unfold entry_text; by destruct (lstrip column)|].
  rewrite (threshold_item_fields _ (lstrip column) (rstrip value) []).
  - by rewrite (float_rstrip _ _ Hx).
  - unfold entry_text. rewrite split_app.
    + rewrite split_no_sep; [done|]. intros H. apply Hv. by eapply rstrip_by_elem.
    + intros H. apply Hc. by eapply lstrip_by_elem.
Qed.

Lemma threshold_item_entry_more (column value rest : str) (x : pyfloat) :
  "="%char ∉ column → "="%char ∉ value → float value = Ok x →
  strip (entry_text column (entry_text value rest)) ≠ [] ∧
  threshold_item (strip (entry_text column (entry_text value rest)))
    = Ok (lstrip column, x).
Proof.
  intros Hc Hv Hx. rewrite strip_entry. split; [unfold entry_text; by destruct (lstrip column)|].
  assert (rstrip (entry_text value rest) = entry_text value (rstrip rest)) as ->.
  { unfold rstrip, entry_text. by rewrite rstrip_by_stop. }
  rewrite (threshold_item_fields _ (lstrip column) value (split "=" (rstrip rest))).
  - by rewrite Hx.
  - unfold entry_text. rewrite split_app.
    + by rewrite split_app.
    + intros H. apply Hc. by eapply lstrip_by_elem.
Qed.

(** ** From the text to the arguments of the library *)

Lemma join_split (sep : ascii) (s : str) : join sep (split sep s) = s.
Proof.
  induction s as [|c s IH]; simpl; [done|].
  case_decide as Hc.
  - subst c. destruct (split sep s) as [|w ws] eqn:Hs; [by destruct (split_not_nil sep s)|].
    by rewrite <- IH.
  - destruct (split sep s) as [|w ws] eqn:Hs; [by destruct (split_not_nil sep s)|].
    rewrite <- IH. by destruct ws.
Qed.

Lemma isspace_comma : isspace "," = false.
Proof. reflexivity. Qed.

Lemma blank_no_comma (raw : str) : blank raw → ","%char ∉ raw.
Proof.
  intros Hb Hin. unfold blank in Hb. rewrite Forall_forall in Hb.
  specialize (Hb _ Hin). by rewrite isspace_comma in Hb.
Qed.

Lemma parse_grouping_columns_blank (raw : str) :
  blank raw → parse_grouping_columns raw = None.
Proof.
  intros Hb. unfold parse_grouping_columns.
  rewrite (split_no_sep _ _ (blank_no_comma _ Hb)). simpl.
  unfold strip. rewrite strip_by_blank by done. by rewrite decide_True.
Qed.

Lemma parse_grouping_columns_names (raw : str) :
  ¬ blank raw → parse_grouping_columns raw = Some (map strip (split "," raw)).
Proof.
  intros Hb. unfold parse_grouping_columns. case_decide as Hc; [|done].
  destruct Hb. pose proof (join_split "," raw) as Hj.
  destruct (split "," raw) as [|w [|w' ws]]; simplify_eq/=.
  by apply strip_by_nil_blank.
Qed.

Lemma foldl_insert_other (items : list (str * pyfloat)) (d : gmap str pyfloat) (k : str) :
  k ∉ map fst items →
  foldl (λ d kv, <[kv.1 := kv.2]> d) d items !! k = d !! k.
Proof.
  revert d. induction items as [|[k' x'] items IH]; intros d Hk; simpl; [done|].
  simpl in Hk. apply not_elem_of_cons in Hk as [Hne Hk].
  rewrite IH by done. by rewrite lookup_insert_ne.
Qed.

Lemma as_dict_lookup (items : list (str * pyfloat)) (k : str) (x : pyfloat) :
  NoDup (map fst items) → (k, x) ∈ items → as_dict items !! k = Some x.
Proof.
  unfold as_dict. generalize (∅ : gmap str pyfloat).
  induction items as [|[k' x'] items IH]; intros d Hnd Hin; simpl.
  - by apply elem_of_nil in Hin.
  - simpl in Hnd. apply NoDup_cons in Hnd as [Hk' Hnd].
    apply elem_of_cons in Hin as [[= -> ->] | Hin].
    + rewrite foldl_insert_other by done. apply lookup_insert_eq.
    + by apply IH.
Qed.

Lemma entry_text_no_comma (column value : str) :
  ","%char ∉ column → ","%char ∉ value → ","%char ∉ entry_text column value.
Proof.
  intros Hc Hv. unfold entry_text. apply not_elem_of_app. split; [done|].
  by apply not_elem_of_cons.
Qed.

Lemma threshold_items_parsed (entries : list threshold_entry) :
  Forall well_formed entries →
  Forall2 (λ e kv, e ≠ [] ∧ threshold_item e = Ok kv)
    (map strip (map (λ e, entry_text (entry_column e) (entry_value e)) entries))
    (threshold_items entries).
Proof.
  induction 1 as [|e entries (_ & Hc & _ & Hv & Hx) _ IH]; simpl; constructor; [|done].
  by apply threshold_item_entry.
Qed.

Lemma parse_thresholds_text (entries : list threshold_entry) :
  Forall well_formed entries →
  parse_thresholds (threshold_text entries) = Ok (as_dict (threshold_items entries)).
Proof.
  intros Hwf. destruct entries as [|e entries]; [done|].
  unfold parse_thresholds, threshold_text. rewrite split_join.
  - apply dict_comprehension_items. by apply threshold_items_parsed.
  - done.
  - apply Forall_forall. intros w [e' [-> Hin]]%elem_of_map.
    rewrite Forall_forall in Hwf. destruct (Hwf _ Hin) as (? & _ & ? & _).
    by apply entry_text_no_comma.
Qed.

Lemma parse_thresholds_raise (raw e : str) (err : exn) :
  e ∈ entries_of raw → threshold_item e = Raise err →
  ∃ err', parse_thresholds raw = Raise err'.
Proof.
  unfold entries_of. intros [Hne Hin]%list_elem_of_filter Hraise.
  by eapply dict_comprehension_raise.
Qed.

Lemma parse_thresholds_lookup (raw : str) (m : gmap str pyfloat) (k : str) (v : pyfloat) :
  parse_thresholds raw = Ok m → m !! k = Some v →
  ∃ e, e ∈ entries_of raw ∧ threshold_item e = Ok (k, v).
Proof.
  intros Hp Hk.
  destruct (dict_comprehension_lookup _ _ _ _ _ Hp Hk) as [Hd | (e & Hin & Hne & Hi)].
  - by rewrite lookup_empty in Hd.
  - exists e. split; [|done]. unfold entries_of. by apply list_elem_of_filter.
Qed.

Lemma parse_thresholds_fields (fields : list str) :
  fields ≠ [] → Forall (λ w, ","%char ∉ w) fields →
  parse_thresholds (join "," fields) = dict_comprehension (map strip fields) ∅.
Proof. intros Hne Hall. unfold parse_thresholds. by rewrite split_join. Qed.

Lemma dict_comprehension_accepts (l : list str) (d : gmap str pyfloat) :
  Forall (λ e, e = [] ∨ ∃ kv, threshold_item e = Ok kv) l →
  ∃ m, dict_comprehension l d = Ok m.
Proof.
  intros H. revert d. induction H as [|e l He _ IH]; intros d; simpl; [by eexists|].
  case_decide as Hne; [|apply IH].
  destruct He as [->|[[k v] ->]]; [done|]. simpl. apply IH.
Qed.

Lemma accepted_item (e : str) :
  accepted_entry e → ∃ kv, threshold_item e = Ok kv.
Proof.
  intros (text & x & Ht & Hf). unfold right_hand_side in Ht.
  unfold threshold_item, getitem.
  destruct (split "=" e) as [|k [|v more]]; simplify_eq/=.
  rewrite Hf. by eexists.
Qed.

Lemma accepted_items (l : list str) :
  Forall (λ w, strip w = [] ∨ accepted_entry (strip w)) l →
  Forall (λ e, e = [] ∨ ∃ kv, threshold_item e = Ok kv) (map strip l).
Proof.
  intros H. apply Forall_forall. intros e [w [-> Hw]]%elem_of_map.
  rewrite Forall_forall in H. destruct (H _ Hw) as [He|He]; [by left|].
  right. by apply accepted_item.
Qed.

Lemma threshold_item_raises (e : str) (err : exn) :
  threshold_item e = Raise err → err = IndexError ∨ err = ValueError.
Proof.
  unfold threshold_item, getitem.
  destruct (split "=" e) as [|k [|v more]]; simpl; [naive_solver..|].
  destruct (float v) as [x|err'] eqn:Hf; simpl; [done|].
  intros [= <-]. right. by eapply float_raises.
Qed.

Lemma dict_comprehension_raises (l : list str) (d : gmap str pyfloat) (err : exn) :
  dict_comprehension l d = Raise err → err = IndexError ∨ err = ValueError.
Proof.
  revert d. induction l as [|e l IH]; intros d; simpl; [done|].
  case_decide; [|apply IH].
  destruct (threshold_item e) as [[k v]|err'] eqn:Hi; simpl; [apply IH|].
  intros [= <-]. by eapply threshold_item_raises.
Qed.

(** ** The page *)

(** Membership of an event in a run that is written out. *)
Ltac in_trace H :=
  repeat first
    [ apply elem_of_nil in H; destruct H
    | apply elem_of_cons in H as [H|H]; [try discriminate H|]
    | apply elem_of_app in H as [H|H]
    | apply elem_of_map in H as (? & H & ?); try discriminate H ].

Section PageFacts.
Context {DataFrame UploadedFile Table Ratios : Type}.
Variable read_csv : csv_source UploadedFile → result DataFrame.
Variable get_data_report :
  DataFrame → DataFrame → str → str → option (list str) →
  gmap str pyfloat → result (DataReport * list str).
Variable get_dataframe : DataReport → Table.
Variable get_ratio_of_differences_per_source : DataReport → Ratios.
Variable get_column_difference_ratio : DataReport → Ratios.
Variable get_number_of_row_differences : DataReport → Z.
Variable warns : derivation → DataReport → list str → list str.

Local Abbreviation event := (@Server.event DataFrame UploadedFile Table Ratios).
Local Abbreviation get_differences :=
  (@Server.get_differences DataFrame UploadedFile Table Ratios
     get_data_report get_dataframe
     get_ratio_of_differences_per_source get_column_difference_ratio
     get_number_of_row_differences warns).
Local Abbreviation upload_tab :=
  (@Server.upload_tab DataFrame UploadedFile Table Ratios
     read_csv get_data_report get_dataframe
     get_ratio_of_differences_per_source get_column_difference_ratio
     get_number_of_row_differences warns).
Local Abbreviation example_tab :=
  (@Server.example_tab DataFrame UploadedFile Table Ratios
     read_csv get_data_report get_dataframe
     get_ratio_of_differences_per_source get_column_difference_ratio
     get_number_of_row_differences warns).
Local Abbreviation report_events :=
  (@report_part DataFrame UploadedFile Table Ratios
     get_dataframe get_ratio_of_differences_per_source
     get_number_of_row_differences).
Local Abbreviation grouping_events :=
  (@grouping_part DataFrame UploadedFile Table Ratios
     get_column_difference_ratio).

Lemma total_rows_not_zero (report : DataReport) : total_rows report ≠ 0%Z.
Proof. unfold total_rows. case_decide; lia. Qed.

Lemma truediv_total_rows (n : Z) (report : DataReport) :
  truediv n (total_rows report)
  = Ok (inject_Z n / inject_Z (total_rows report))%Q.
Proof.
  unfold truediv. rewrite decide_False; [done|apply total_rows_not_zero].
Qed.

Lemma for_each_warning (w : list str) :
  for_each w (λ warning, emit (st_warning warning))
  = (map st_warning w, Done tt) :> script (DataFrame:=DataFrame)
      (UploadedFile:=UploadedFile) (Table:=Table) (Ratios:=Ratios) unit.
Proof.
  induction w as [|m w IH]; simpl; [done|].
  rewrite IH. done.
Qed.

(** The run of [get_differences] when the library raises. *)
Lemma get_differences_raise df1 df2 n1 n2 g th (e : exn) :
  get_data_report df1 df2 n1 n2 g th = Raise e →
  get_differences df1 df2 n1 n2 g th
  = ([st_spinner (py "Generating report...");
      call_get_data_report df1 df2 n1 n2 g th], Fail e).
Proof. intros H. unfold Server.get_differences, call. rewrite H. done. Qed.

(** The run of [get_differences] when the library returns a report. *)
Lemma get_differences_ok df1 df2 n1 n2 g th (report : DataReport) (w : list str) :
  get_data_report df1 df2 n1 n2 g th = Ok (report, w) →
  get_differences df1 df2 n1 n2 g th
  = (st_spinner (py "Generating report...")
     :: call_get_data_report df1 df2 n1 n2 g th
     :: report_events report
     ++ match g with
        | Some _ => grouping_events report (recorded warns report w)
        | None => []
        end,
     Done tt).
Proof.
  intros H. unfold Server.get_differences, call. rewrite H. simpl.
  rewrite truediv_total_rows.
  destruct g as [cols|]; simpl.
  - rewrite for_each_warning. done.
  - done.
Qed.

(** The only call of the library's entry point in a run of
    [get_differences] is the one on its own arguments. *)
Lemma get_differences_report_call df1 df2 n1 n2 g th a b c d g' th' :
  call_get_data_report a b c d g' th' ∈ trace (get_differences df1 df2 n1 n2 g th) →
  a = df1 ∧ b = df2 ∧ c = n1 ∧ d = n2 ∧ g' = g ∧ th' = th.
Proof.
  destruct (get_data_report df1 df2 n1 n2 g th) as [[report w]|e] eqn:Hr.
  - rewrite (get_differences_ok _ _ _ _ _ _ _ _ Hr). unfold trace. simpl.
    intros H. destruct g; unfold report_part, grouping_part in H; in_trace H;
      by simplify_eq.
  - rewrite (get_differences_raise _ _ _ _ _ _ _ Hr). unfold trace. simpl.
    intros H. in_trace H. by simplify_eq.
Qed.

Lemma get_differences_calls df1 df2 n1 n2 g th :
  call_get_data_report df1 df2 n1 n2 g th ∈ trace (get_differences df1 df2 n1 n2 g th).
Proof.
  destruct (get_data_report df1 df2 n1 n2 g th) as [[report w]|e] eqn:Hr.
  - rewrite (get_differences_ok _ _ _ _ _ _ _ _ Hr). unfold trace. simpl.
    apply elem_of_cons. right. apply elem_of_cons. by left.
  - rewrite (get_differences_raise _ _ _ _ _ _ _ Hr). unfold trace. simpl.
    apply elem_of_cons. right. apply elem_of_cons. by left.
Qed.

(** *** The upload tab *)

Lemma upload_tab_idle (f : upload_form) :
  calculate_differences_upload f = false → upload_tab f = ([], Done tt).
Proof. intros H. unfold Server.upload_tab. by rewrite H. Qed.

Lemma upload_tab_thresholds_raise (f : upload_form) (e : exn) :
  calculate_differences_upload f = true →
  parse_thresholds (thresholds_upload f) = Raise e →
  upload_tab f = ([], Fail e).
Proof. intros H Hp. unfold Server.upload_tab. by rewrite H, Hp. Qed.

Lemma upload_tab_rejected (f : upload_form) (m : gmap str pyfloat) :
  calculate_differences_upload f = true →
  parse_thresholds (thresholds_upload f) = Ok m →
  ¬ upload_ready f →
  ∃ message, upload_tab f = ([st_error message], Stop).
Proof.
  intros H Hp Hn. unfold Server.upload_tab. rewrite H, Hp. simpl.
  destruct (df0_uploader f) as [file0|] eqn:H0; [|by eexists].
  destruct (df1_uploader f) as [file1|] eqn:H1; [|by eexists].
  case_decide as Hnames; [by eexists|].
  destruct Hn. unfold upload_ready. rewrite H0, H1.
  split_and!; [by eexists | by eexists | tauto | tauto].
Qed.

Lemma upload_tab_accepted (f : upload_form) (m : gmap str pyfloat)
    (file0 file1 : UploadedFile) :
  calculate_differences_upload f = true →
  parse_thresholds (thresholds_upload f) = Ok m →
  df0_uploader f = Some file0 → df1_uploader f = Some file1 →
  df0_name_upload f ≠ [] → df1_name_upload f ≠ [] →
  upload_tab f =
    match read_csv (Uploaded file0), read_csv (Uploaded file1) with
    | Ok d1, Ok d2 =>
        (call_read_csv (Uploaded file0) :: call_read_csv (Uploaded file1)
         :: trace (get_differences d1 d2 (df0_name_upload f) (df1_name_upload f)
                     (parse_grouping_columns (grouping_columns_upload f)) m),
         ending (get_differences d1 d2 (df0_name_upload f) (df1_name_upload f)
                     (parse_grouping_columns (grouping_columns_upload f)) m))
    | Ok d1, Raise e =>
        ([call_read_csv (Uploaded file0); call_read_csv (Uploaded file1)], Fail e)
    | Raise e, _ => ([call_read_csv (Uploaded file0)], Fail e)
    end.
Proof.
  intros H Hp H0 H1 Hn0 Hn1. unfold Server.upload_tab.
  rewrite H, Hp. simpl. rewrite H0, H1.
  rewrite decide_False by tauto. unfold call.
  destruct (read_csv (Uploaded file0)) as [d1|e]; simpl; [|done].
  destruct (read_csv (Uploaded file1)) as [d2|e]; simpl; [|done].
  by destruct (Server.get_differences _ _ _ _ _ _ _ _ _ _).
Qed.

Lemma upload_tab_report_call (f : upload_form) a b c d g th :
  call_get_data_report a b c d g th ∈ trace (upload_tab f) →
  calculate_differences_upload f = true ∧ upload_ready f ∧
  parse_thresholds (thresholds_upload f) = Ok th ∧
  g = parse_grouping_columns (grouping_columns_upload f) ∧
  c = df0_name_upload f ∧ d = df1_name_upload f.
Proof.
  destruct (calculate_differences_upload f) eqn:Hc;
    [|rewrite upload_tab_idle by done; intros H; in_trace H].
  destruct (parse_thresholds (thresholds_upload f)) as [m|e] eqn:Hp;
    [|rewrite (upload_tab_thresholds_raise _ e) by done; intros H; in_trace H].
  destruct (decide (upload_ready f)) as [Hr|Hr];
    [|destruct (upload_tab_rejected _ _ Hc Hp Hr) as [msg ->]; intros H; in_trace H].
  pose proof Hr as ([file0 H0] & [file1 H1] & Hn0 & Hn1).
  rewrite (upload_tab_accepted _ m file0 file1) by done.
  destruct (read_csv (Uploaded file0)) as [d1|e]; [|intros H; in_trace H].
  destruct (read_csv (Uploaded file1)) as [d2|e]; [|intros H; in_trace H].
  unfold trace at 1. simpl. intros H.
  apply elem_of_cons in H as [H|H]; [done|].
  apply elem_of_cons in H as [H|H]; [done|].
  apply get_differences_report_call in H as (-> & -> & -> & -> & -> & ->).
  by split_and!.
Qed.

(** *** The example tab *)

Lemma example_tab_idle (f : example_form) :
  calculate_differences_raw f = false → example_tab f = ([], Done tt).
Proof. intros H. unfold Server.example_tab. by rewrite H. Qed.

Lemma example_tab_thresholds_raise (f : example_form) (e : exn) :
  calculate_differences_raw f = true →
  parse_thresholds (thresholds_raw f) = Raise e →
  example_tab f = ([], Fail e).
Proof. intros H Hp. unfold Server.example_tab. by rewrite H, Hp. Qed.

Lemma example_tab_accepted (f : example_form) (m : gmap str pyfloat) :
  calculate_differences_raw f = true →
  parse_thresholds (thresholds_raw f) = Ok m →
  example_tab f =
    match read_csv (StringIO (df0_data_raw f)), read_csv (StringIO (df1_data_raw f)) with
    | Ok d1, Ok d2 =>
        (call_read_csv (StringIO (df0_data_raw f))
         :: call_read_csv (StringIO (df1_data_raw f))
         :: trace (get_differences d1 d2 (df0_name_raw f) (df1_name_raw f)
                     (parse_grouping_columns (grouping_columns_raw f)) m),
         ending (get_differences d1 d2 (df0_name_raw f) (df1_name_raw f)
                     (parse_grouping_columns (grouping_columns_raw f)) m))
    | Ok d1, Raise e =>
        ([call_read_csv (StringIO (df0_data_raw f));
          call_read_csv (StringIO (df1_data_raw f))], Fail e)
    | Raise e, _ => ([call_read_csv (StringIO (df0_data_raw f))], Fail e)
    end.
Proof.
  intros H Hp. unfold Server.example_tab. rewrite H, Hp. simpl. unfold call.
  destruct (read_csv (StringIO (df0_data_raw f))) as [d1|e]; simpl; [|done].
  destruct (read_csv (StringIO (df1_data_raw f))) as [d2|e]; simpl; [|done].
  by destruct (Server.get_differences _ _ _ _ _ _ _ _ _ _).
Qed.

Lemma example_tab_report_call (f : example_form) a b c d g th :
  call_get_data_report a b c d g th ∈ trace (example_tab f) →
  calculate_differences_raw f = true ∧
  parse_thresholds (thresholds_raw f) = Ok th ∧
  g = parse_grouping_columns (grouping_columns_raw f) ∧
  c = df0_name_raw f ∧ d = df1_name_raw f.
Proof.
  destruct (calculate_differences_raw f) eqn:Hc;
    [|rewrite example_tab_idle by done; intros H; in_trace H].
  destruct (parse_thresholds (thresholds_raw f)) as [m|e] eqn:Hp;
    [|rewrite (example_tab_thresholds_raise _ e) by done; intros H; in_trace H].
  rewrite (example_tab_accepted _ m) by done.
  destruct (read_csv (StringIO (df0_data_raw f))) as [d1|e]; [|intros H; in_trace H].
  destruct (read_csv (StringIO (df1_data_raw f))) as [d2|e]; [|intros H; in_trace H].
  unfold trace at 1. simpl. intros H.
  apply elem_of_cons in H as [H|H]; [done|].
  apply elem_of_cons in H as [H|H]; [done|].
  apply get_differences_report_call in H as (-> & -> & -> & -> & -> & ->).
  by split_and!.
Qed.

(** *** The claims about the two text fields *)

(** C1: a threshold text made of comma-separated [column=value] entries,
    each value numeric, is parsed into the mapping from each column name
    to the number of its right-hand side, and that mapping is the one
    either tab hands to [get_data_report]; the empty text gives the
    empty mapping. *)
Theorem C1_threshold_text_parsed (entries : list threshold_entry) :
  Forall well_formed entries →
  parse_thresholds (threshold_text entries) = Ok (as_dict (threshold_items entries))
  ∧ (NoDup (map fst (threshold_items entries)) →
     ∀ e, e ∈ entries →
       as_dict (threshold_items entries) !! lstrip (entry_column e)
       = Some (entry_number e))
  ∧ parse_thresholds [] = Ok ∅
  ∧ (∀ (f : upload_form) a b c d g th,
       thresholds_upload f = threshold_text entries →
       call_get_data_report a b c d g th ∈ trace (upload_tab f) →
       th = as_dict (threshold_items entries))
  ∧ (∀ (f : example_form) a b c d g th,
       thresholds_raw f = threshold_text entries →
       call_get_data_report a b c d g th ∈ trace (example_tab f) →
       th = as_dict (threshold_items entries)).
Proof.
  intros Hwf. pose proof (parse_thresholds_text _ Hwf) as Hp.
  split_and!; [done| |done| |].
  - intros Hnd e He. apply as_dict_lookup; [done|].
    unfold threshold_items. apply elem_of_map. by exists e.
  - intros f a b c d g th Hraw (_ & _ & Hth & _)%upload_tab_report_call.
    rewrite Hraw in Hth. congruence.
  - intros f a b c d g th Hraw (_ & Hth & _)%example_tab_report_call.
    rewrite Hraw in Hth. congruence.
Qed.

(** C4, as the code has it: a grouping-column text that is empty or
    holds only blanks gives [None]; any other text gives the list of its
    comma-separated fields, each stripped, in the order written; either
    tab hands that value to [get_data_report]. *)
Theorem C4_grouping_columns_parsed (raw : str) :
  (blank raw → parse_grouping_columns raw = None)
  ∧ (¬ blank raw →
     parse_grouping_columns raw = Some (map strip (split "," raw)))
  ∧ (∀ (f : upload_form) a b c d g th,
       grouping_columns_upload f = raw →
       call_get_data_report a b c d g th ∈ trace (upload_tab f) →
       g = parse_grouping_columns raw)
  ∧ (∀ (f : example_form) a b c d g th,
       grouping_columns_raw f = raw →
       call_get_data_report a b c d g th ∈ trace (example_tab f) →
       g = parse_grouping_columns raw).
Proof.
  split_and!.
  - apply parse_grouping_columns_blank.
  - apply parse_grouping_columns_names.
  - intros f a b c d g th <- (_ & _ & _ & Hg & _)%upload_tab_report_call. done.
  - intros f a b c d g th <- (_ & _ & Hg & _)%example_tab_report_call. done.
Qed.

(** C5: when one entry of the threshold text lacks [=], or has a
    right-hand side that is not numeric, building the mapping raises; a
    tab given that text renders nothing, calls nothing, and, once its
    button is pressed, ends with that exception. *)
Theorem C5_malformed_entry_stops_the_run (raw e : str) :
  e ∈ entries_of raw →
  missing_equals e ∨ (∃ text, right_hand_side e text ∧ not_numeric text) →
  ∃ err, parse_thresholds raw = Raise err
    ∧ (err = IndexError ∨ err = ValueError)
    ∧ (∀ f : upload_form, thresholds_upload f = raw →
         trace (upload_tab f) = [] ∧
         (calculate_differences_upload f = true →
          ending (upload_tab f) = Fail err))
    ∧ (∀ f : example_form, thresholds_raw f = raw →
         trace (example_tab f) = [] ∧
         (calculate_differences_raw f = true →
          ending (example_tab f) = Fail err)).
Proof.
  intros He Hbad.
  assert (∃ err0, threshold_item e = Raise err0) as [err0 Hi].
  { destruct Hbad as [Hm | (text & Ht & Hn)].
    - eexists. by apply threshold_item_missing.
    - eexists. by eapply threshold_item_not_numeric. }
  destruct (parse_thresholds_raise _ _ _ He Hi) as [err Hp].
  exists err. split_and!; [done|by eapply dict_comprehension_raises| |].
  - intros f <-. destruct (calculate_differences_upload f) eqn:Hc.
    + by rewrite (upload_tab_thresholds_raise _ err).
    + by rewrite upload_tab_idle.
  - intros f <-. destruct (calculate_differences_raw f) eqn:Hc.
    + by rewrite (example_tab_thresholds_raise _ err).
    + by rewrite example_tab_idle.
Qed.

(** C6, as the code has it: every value of the mapping built from an
    accepted text is the number [float] reads from the right-hand side
    of one of its entries, sign included; the values are non-negative
    when those numbers are, and nothing is checked on the way to
    [get_data_report]. *)
Theorem C6_threshold_values (raw : str) (m : gmap str pyfloat) :
  parse_thresholds raw = Ok m →
  (∀ k v, m !! k = Some v →
     ∃ e text, e ∈ entries_of raw ∧ split "=" e !! 0 = Some k ∧
               right_hand_side e text ∧ float text = Ok v)
  ∧ ((∀ e text v, e ∈ entries_of raw → right_hand_side e text →
        float text = Ok v → float_ge0 v = true) →
     ∀ k v, m !! k = Some v → float_ge0 v = true)
  ∧ (∀ (f : upload_form) a b c d g th,
       thresholds_upload f = raw →
       call_get_data_report a b c d g th ∈ trace (upload_tab f) → th = m)
  ∧ (∀ (f : example_form) a b c d g th,
       thresholds_raw f = raw →
       call_get_data_report a b c d g th ∈ trace (example_tab f) → th = m).
Proof.
  intros Hp.
  assert (∀ k v, m !! k = Some v →
     ∃ e text, e ∈ entries_of raw ∧ split "=" e !! 0 = Some k ∧
               right_hand_side e text ∧ float text = Ok v) as Hvalues.
  { intros k v Hk.
    destruct (parse_thresholds_lookup _ _ _ _ Hp Hk) as (e & He & Hi).
    apply threshold_item_inv in Hi as (Hkey & text & Ht & Hf).
    by exists e, text. }
  split_and!; [done| | |].
  - intros Hall k v Hk. destruct (Hvalues _ _ Hk) as (e & text & He & _ & Ht & Hf).
    by eapply Hall.
  - intros f a b c d g th <- (_ & _ & Hth & _)%upload_tab_report_call. congruence.
  - intros f a b c d g th <- (_ & Hth & _)%example_tab_report_call. congruence.
Qed.

(** *** The claims about the rendering of a report *)

(** C2 fails on the code: the loop over the recorded warnings sits inside
    the branch for grouping columns.  With a report in hand, what is
    rendered by [st.warning] is what [catch_warnings] recorded over the
    whole block when grouping columns were given, the warnings of
    [get_data_report] among them, and nothing at all when they were not. *)
Theorem C2_warnings_only_with_grouping df1 df2 n1 n2 g th
    (report : DataReport) (w : list str) :
  get_data_report df1 df2 n1 n2 g th = Ok (report, w) →
  (∀ message,
     st_warning message ∈ trace (get_differences df1 df2 n1 n2 g th)
     ↔ message ∈ recorded warns report w ∧ is_Some g)
  ∧ (∀ message, message ∈ w → is_Some g →
       st_warning message ∈ trace (get_differences df1 df2 n1 n2 g th))
  ∧ (g = None →
     ∀ message, st_warning message ∉ trace (get_differences df1 df2 n1 n2 g th)).
Proof.
  intros Hr.
  assert (∀ message,
     st_warning message ∈ trace (get_differences df1 df2 n1 n2 g th)
     ↔ message ∈ recorded warns report w ∧ is_Some g) as Hshown.
  { intros message. rewrite (get_differences_ok _ _ _ _ _ _ _ _ Hr).
    unfold trace. simpl. split.
    - intros H. destruct g; unfold report_part, grouping_part in H; in_trace H.
      simplify_eq. by split.
    - intros [Hm [cols ->]]. unfold report_part, grouping_part. simpl.
      repeat (apply elem_of_cons; right).
      apply elem_of_map. by exists message. }
  split_and!; [done| |].
  - intros message Hm Hg. apply Hshown. split; [|done].
    unfold recorded. rewrite !elem_of_app. tauto.
  - intros -> message [_ [? ?]]%Hshown. done.
Qed.


(** C7: the breakdown per grouping column is computed and drawn exactly
    when grouping columns were given; without them
    [get_column_difference_ratio] is not called. *)
Theorem C7_column_ratio_only_with_grouping df1 df2 n1 n2 g th :
  (∀ r, call_get_column_difference_ratio r
          ∈ trace (get_differences df1 df2 n1 n2 g th) → is_Some g)
  ∧ (∀ x y data, st_bar_chart x y data
          ∈ trace (get_differences df1 df2 n1 n2 g th) →
       x = py "column" → is_Some g)
  ∧ (∀ report w, get_data_report df1 df2 n1 n2 g th = Ok (report, w) →
       is_Some g →
       call_get_column_difference_ratio report
         ∈ trace (get_differences df1 df2 n1 n2 g th)
       ∧ st_bar_chart (py "column") (py "ratio_of_differences")
           (get_column_difference_ratio report)
         ∈ trace (get_differences df1 df2 n1 n2 g th)).
Proof.
  destruct (get_data_report df1 df2 n1 n2 g th) as [[report w]|e] eqn:Hr.
  - rewrite (get_differences_ok _ _ _ _ _ _ _ _ Hr). unfold trace. simpl.
    split_and!.
    + intros r H. destruct g; [done|].
      unfold report_part, grouping_part in H. in_trace H.
    + intros x y data H Hx. destruct g; [done|].
      unfold report_part, grouping_part in H. in_trace H.
      by simplify_eq.
    + intros report' w' [= <- <-] [cols ->].
      split; unfold report_part, grouping_part; found.
  - rewrite (get_differences_raise _ _ _ _ _ _ _ Hr). unfold trace. simpl.
    split_and!.
    + intros r H. in_trace H.
    + intros x y data H. in_trace H.
    + intros report w [=].
Qed.

(** C9: in the upload tab the library is called only with both files
    uploaded and both names filled in; otherwise, once the button is
    pressed, the run ends before any CSV is read or any report is asked
    for, with the error message of the check (or, when the threshold text
    does not parse, with the exception raised before the checks).  The
    example tab has no check on the names: pressed with texts that parse,
    it asks for the report under whatever names were typed. *)
Theorem C9_upload_tab_checks_inputs :
  (∀ (f : upload_form) a b c d g th,
     call_get_data_report a b c d g th ∈ trace (upload_tab f) →
     upload_ready f)
  ∧ (∀ f : upload_form,
       calculate_differences_upload f = true → ¬ upload_ready f →
       (∀ source, call_read_csv source ∉ trace (upload_tab f))
       ∧ (∀ a b c d g th, call_get_data_report a b c d g th ∉ trace (upload_tab f))
       ∧ match parse_thresholds (thresholds_upload f) with
         | Ok _ => ∃ message, upload_tab f = ([st_error message], Stop)
         | Raise err => upload_tab f = ([], Fail err)
         end)
  ∧ (∀ (f : example_form) m d1 d2,
       calculate_differences_raw f = true →
       parse_thresholds (thresholds_raw f) = Ok m →
       read_csv (StringIO (df0_data_raw f)) = Ok d1 →
       read_csv (StringIO (df1_data_raw f)) = Ok d2 →
       call_get_data_report d1 d2 (df0_name_raw f) (df1_name_raw f)
         (parse_grouping_columns (grouping_columns_raw f)) m
         ∈ trace (example_tab f)).
Proof.
  split_and!.
  - intros f a b c d g th (_ & Hr & _)%upload_tab_report_call. done.
  - intros f Hc Hn.
    destruct (parse_thresholds (thresholds_upload f)) as [m|err] eqn:Hp.
    + destruct (upload_tab_rejected _ _ Hc Hp Hn) as [message Hrun].
      rewrite Hrun. unfold trace. simpl. split_and!.
      * intros source H. in_trace H.
      * intros a b c d g th H. in_trace H.
      * by exists message.
    + rewrite (upload_tab_thresholds_raise _ err) by done. unfold trace. simpl.
      split_and!; [intros source H; in_trace H | intros a b c d g th H; in_trace H | done].
  - intros f m d1 d2 Hc Hp H1 H2.
    rewrite (example_tab_accepted _ m) by done. rewrite H1, H2.
    unfold trace at 1. simpl. do 2 (apply elem_of_cons; right).
    apply get_differences_calls.
Qed.
End PageFacts.

(** ** Entries with more than one [=], and repeated columns *)

(** C10: in an entry with a second [=] the value is the text between the
    first and the second, and what follows is dropped: the text is accepted
    as it is without the remainder and gives the same mapping.  When
    several entries name one column, the text is accepted and the last of
    them decides the value. *)
Theorem C10_extra_equals_and_repeated_columns :
  (∀ (before after : list str) (column value rest : str) (x : pyfloat),
     Forall (λ w, ","%char ∉ w) (before ++ after) →
     ","%char ∉ column → "="%char ∉ column →
     ","%char ∉ value → "="%char ∉ value → ","%char ∉ rest →
     float value = Ok x →
     parse_thresholds
       (join "," (before ++ entry_text column (entry_text value rest) :: after))
     = parse_thresholds (join "," (before ++ entry_text column value :: after)))
  ∧ (∀ (before after : list str) (column value : str) (x : pyfloat)
       (m : gmap str pyfloat),
     Forall (λ w, ","%char ∉ w) (before ++ after) →
     ","%char ∉ column → "="%char ∉ column →
     ","%char ∉ value → "="%char ∉ value →
     float value = Ok x →
     (∀ w, w ∈ after → split "=" (strip w) !! 0 ≠ Some (lstrip column)) →
     parse_thresholds (join "," (before ++ entry_text column value :: after)) = Ok m →
     m !! lstrip column = Some x)
  ∧ (∀ (before after : list str) (column value rest : str) (x : pyfloat),
     Forall (λ w, ","%char ∉ w) (before ++ after) →
     Forall (λ w, strip w = [] ∨ accepted_entry (strip w)) (before ++ after) →
     ","%char ∉ column → "="%char ∉ column →
     ","%char ∉ value → "="%char ∉ value → ","%char ∉ rest →
     float value = Ok x →
     (∀ w, w ∈ after → split "=" (strip w) !! 0 ≠ Some (lstrip column)) →
     ∃ m, parse_thresholds
            (join "," (before ++ entry_text column (entry_text value rest) :: after))
          = Ok m
          ∧ m !! lstrip column = Some x)
  ∧ (∀ (before between after : list str) (column value1 value2 : str)
       (x1 x2 : pyfloat),
     Forall (λ w, ","%char ∉ w) (before ++ between ++ after) →
     Forall (λ w, strip w = [] ∨ accepted_entry (strip w))
       (before ++ between ++ after) →
     ","%char ∉ column → "="%char ∉ column →
     ","%char ∉ value1 → "="%char ∉ value1 → float value1 = Ok x1 →
     ","%char ∉ value2 → "="%char ∉ value2 → float value2 = Ok x2 →
     (∀ w, w ∈ after → split "=" (strip w) !! 0 ≠ Some (lstrip column)) →
     ∃ m, parse_thresholds
            (join "," (before ++ entry_text column value1
                         :: between ++ entry_text column value2 :: after))
          = Ok m
          ∧ m !! lstrip column = Some x2).
Proof.
  assert (∀ (before after : list str) (e : str),
    Forall (λ w, ","%char ∉ w) (before ++ after) → ","%char ∉ e →
    parse_thresholds (join "," (before ++ e :: after))
    = dict_comprehension (map strip before ++ strip e :: map strip after) ∅) as Hfields.
  { intros before after e Hall He. unfold parse_thresholds.
    rewrite split_join.
    - by rewrite map_app.
    - by destruct before.
    - apply Forall_app in Hall as [Hb Ha]. apply Forall_app. split; [done|].
      by constructor. }
  assert (∀ (before after : list str) (column value rest : str) (x : pyfloat),
     Forall (λ w, ","%char ∉ w) (before ++ after) →
     ","%char ∉ column → "="%char ∉ column →
     ","%char ∉ value → "="%char ∉ value → ","%char ∉ rest →
     float value = Ok x →
     parse_thresholds
       (join "," (before ++ entry_text column (entry_text value rest) :: after))
     = parse_thresholds (join "," (before ++ entry_text column value :: after)))
    as Hextra.
  { intros before after column value rest x Hall Hc1 Hc2 Hv1 Hv2 Hr Hx.
    rewrite !Hfields; [|done|by apply entry_text_no_comma
                       |done|by apply entry_text_no_comma, entry_text_no_comma].
    rewrite !dict_comprehension_app.
    destruct (dict_comprehension (map strip before) ∅) as [d|err]; simpl; [|done].
    destruct (threshold_item_entry column value x) as [Hne1 ->]; [done..|].
    destruct (threshold_item_entry_more column value rest x) as [Hne2 ->]; [done..|].
    by rewrite !decide_True by done. }
  assert (∀ (before after : list str) (column value : str) (x : pyfloat)
       (m : gmap str pyfloat),
     Forall (λ w, ","%char ∉ w) (before ++ after) →
     ","%char ∉ column → "="%char ∉ column →
     ","%char ∉ value → "="%char ∉ value →
     float value = Ok x →
     (∀ w, w ∈ after → split "=" (strip w) !! 0 ≠ Some (lstrip column)) →
     parse_thresholds (join "," (before ++ entry_text column value :: after)) = Ok m →
     m !! lstrip column = Some x) as Hlast.
  { intros before after column value x m Hall Hc1 Hc2 Hv1 Hv2 Hx Hlater.
    rewrite Hfields; [|done|by apply entry_text_no_comma].
    destruct (threshold_item_entry column value x) as [Hne Hi]; [done..|].
    apply dict_comprehension_last; [done..|].
    intros e' v' [w [-> Hw]]%elem_of_map _ Hi'.
    apply threshold_item_inv in Hi' as [Hkey _]. by eapply Hlater. }
  assert (∀ (before after : list str) (column value : str) (x : pyfloat),
     Forall (λ w, ","%char ∉ w) (before ++ after) →
     Forall (λ w, strip w = [] ∨ accepted_entry (strip w)) (before ++ after) →
     ","%char ∉ column → "="%char ∉ column →
     ","%char ∉ value → "="%char ∉ value →
     float value = Ok x →
     ∃ m, parse_thresholds (join "," (before ++ entry_text column value :: after))
          = Ok m) as Haccepted.
  { intros before after column value x Hall Hacc Hc1 Hc2 Hv1 Hv2 Hx.
    rewrite Hfields; [|done|by apply entry_text_no_comma].
    apply dict_comprehension_accepts.
    apply Forall_app in Hacc as [Hb Ha]. apply Forall_app.
    split; [by apply accepted_items|]. constructor; [|by apply accepted_items].
    right. destruct (threshold_item_entry column value x) as [_ ->]; [done..|].
    by eexists. }
  split_and!; [exact Hextra | exact Hlast | |].
  - intros before after column value rest x Hall Hacc Hc1 Hc2 Hv1 Hv2 Hr Hx Hlater.
    destruct (Haccepted before after column value x) as [m Hm]; [done..|].
    exists m. split.
    + by rewrite (Hextra before after column value rest x).
    + exact (Hlast before after column value x m Hall Hc1 Hc2 Hv1 Hv2 Hx Hlater Hm).
  - intros before between after column value1 value2 x1 x2
      Hall Hacc Hc1 Hc2 Hv1 Hv2 Hx1 Hw1 Hw2 Hx2 Hlater.
    rewrite !Forall_app in Hall, Hacc.
    destruct Hall as (Hb1 & Hb2 & Hb3). destruct Hacc as (Ha1 & Ha2 & Ha3).
    replace (before ++ entry_text column value1
               :: between ++ entry_text column value2 :: after)
      with ((before ++ entry_text column value1 :: between)
              ++ entry_text column value2 :: after)
      by (by rewrite <- app_assoc).
    assert (Forall (λ w, ","%char ∉ w)
              ((before ++ entry_text column value1 :: between) ++ after)) as Hall'.
    { rewrite !Forall_app, Forall_cons. split_and!; try done.
      by apply entry_text_no_comma. }
    destruct (Haccepted (before ++ entry_text column value1 :: between) after
                column value2 x2) as [m Hm]; [done| |done..|].
    { rewrite !Forall_app, Forall_cons. split_and!; try done.
      right. exists (rstrip value1), x1.
      unfold right_hand_side. rewrite strip_entry. unfold entry_text.
      rewrite split_app.
      - rewrite split_no_sep; [by split; [|apply float_rstrip]|].
        intros H. apply Hv2. by eapply rstrip_by_elem.
      - intros H. apply Hc2. by eapply lstrip_by_elem. }
    exists m. split; [done|].
    exact (Hlast _ after column value2 x2 m Hall' Hc1 Hc2 Hw1 Hw2 Hx2 Hlater Hm).
Qed.

(** * The claims on concrete inputs *)

(** C1 on the text [a=1, b=2.5 ]. *)
Lemma C1_witness :
  let entries :=
    [ {| entry_column := py "a"; entry_value := py "1";
         entry_number := Dec false 1 0 |};
      {| entry_column := py " b"; entry_value := py "2.5 ";
         entry_number := Dec false 25 (-1) |} ] in
  Forall well_formed entries
  ∧ parse_thresholds (py "a=1, b=2.5 ")
    = Ok (as_dict [(py "a", Dec false 1 0); (py "b", Dec false 25 (-1))]).
Proof.
  intros entries.
  assert (Forall well_formed entries) as Hwf.
  { unfold entries. repeat apply Forall_cons_2; [| |apply Forall_nil_2];
      (split_and!; [decided..|vm_compute; reflexivity]). }
  split; [exact Hwf|].
  exact (proj1 (C1_threshold_text_parsed Sample.read_csv Sample.get_data_report
                  Sample.get_dataframe Sample.get_ratio Sample.get_ratio
                  Sample.get_number_of_row_differences Sample.warns
                  entries Hwf)).
Defined.

(** C2 at the failing input: the headers of the two example sources differ,
    the library warns, no grouping columns are given, and no warning is
    rendered. *)
Lemma C2_witness :
  ∃ report,
    Sample.get_data_report (Sample.csv "id,val" "1,10") (Sample.csv "id,other" "1,11")
      (py "old") (py "new") None ∅
    = Ok (report, [py "columns differ between the sources"])
    ∧ ∀ message,
        st_warning message
        ∉ trace (Sample.run_differences (Sample.csv "id,val" "1,10")
                   (Sample.csv "id,other" "1,11") (py "old") (py "new") None ∅).
Proof.
  eexists. split; [vm_compute; reflexivity|].
  refine (proj2 (proj2 (C2_warnings_only_with_grouping Sample.get_data_report
                   Sample.get_dataframe Sample.get_ratio Sample.get_ratio
                   Sample.get_number_of_row_differences Sample.warns
                   _ _ _ _ None ∅ _ _ _)) eq_refl).
  vm_compute. reflexivity.
Defined.


(** C4 fails as stated on the text of one blank: it is not empty, and
    [None] is passed, not the list of its one stripped field. *)
Lemma C4_counterexample :
  py " " ≠ []
  ∧ parse_grouping_columns (py " ") = None
  ∧ parse_grouping_columns (py " ") ≠ Some (map strip (split "," (py " "))).
Proof. split_and!; [done | reflexivity | done]. Qed.

(** C4 on the text [ id , val]. *)
Lemma C4_witness :
  ¬ blank (py " id , val")
  ∧ parse_grouping_columns (py " id , val") = Some [py "id"; py "val"].
Proof.
  assert (¬ blank (py " id , val")) as Hb.
  { intros H. apply Forall_cons in H as [_ H]. apply Forall_cons in H as [H _].
    vm_compute in H. discriminate H. }
  split; [exact Hb|].
  exact (proj1 (proj2 (C4_grouping_columns_parsed Sample.read_csv
    Sample.get_data_report Sample.get_dataframe Sample.get_ratio Sample.get_ratio
    Sample.get_number_of_row_differences Sample.warns
    (py " id , val"))) Hb).
Defined.

(** C5 fails as stated on the text [a=1=x]: what follows the first [=] is
    not numeric, yet the entry is accepted and the example tab hands
    [a -> 1] to the library. *)
Lemma C5_counterexample :
  text_after_equals (py "a=1=x") = py "1=x"
  ∧ float (py "1=x") = Raise ValueError
  ∧ parse_thresholds (py "a=1=x") = Ok {[ py "a" := Dec false 1 0 ]}
  ∧ call_get_data_report (Sample.csv "id,val" "1,10") (Sample.csv "id,other" "1,11")
      (py "old") (py "new") None {[ py "a" := Dec false 1 0 ]}
    ∈ trace (Sample.run_example (Sample.example "old" "new" "" "a=1=x")).
Proof.
  assert (parse_thresholds (py "a=1=x") = Ok {[ py "a" := Dec false 1 0 ]}) as Hp
    by (vm_compute; reflexivity).
  split_and!; [reflexivity | vm_compute; reflexivity | exact Hp |].
  unfold Sample.run_example.
  rewrite (example_tab_accepted Sample.read_csv Sample.get_data_report
             Sample.get_dataframe Sample.get_ratio Sample.get_ratio
             Sample.get_number_of_row_differences Sample.warns
             (Sample.example "old" "new" "" "a=1=x") _ eq_refl Hp).
  unfold trace at 1. simpl. do 3 (apply elem_of_cons; right).
  apply elem_of_cons. left. reflexivity.
Qed.

(** C5 on the texts [a=1,b], whose second entry has no [=], and [a=x],
    whose value is not a number. *)
Lemma C5_witness :
  (py "b" ∈ entries_of (py "a=1,b")
   ∧ missing_equals (py "b")
   ∧ parse_thresholds (py "a=1,b") = Raise IndexError
   ∧ trace (Sample.run_example (Sample.example "old" "new" "" "a=1,b")) = [])
  ∧ (py "a=x" ∈ entries_of (py "a=x")
     ∧ right_hand_side (py "a=x") (py "x") ∧ not_numeric (py "x")
     ∧ parse_thresholds (py "a=x") = Raise ValueError
     ∧ trace (Sample.run_example (Sample.example "old" "new" "" "a=x")) = []).
Proof.
  assert (py "b" ∈ entries_of (py "a=1,b")) as He by decided.
  assert (missing_equals (py "b")) as Hm by (unfold missing_equals; decided).
  assert (py "a=x" ∈ entries_of (py "a=x")) as He' by decided.
  assert (right_hand_side (py "a=x") (py "x")) as Hr by reflexivity.
  assert (not_numeric (py "x")) as Hn
    by (intros x Hx; vm_compute in Hx; discriminate Hx).
  split.
  - split_and!; [exact He | exact Hm | reflexivity |].
    destruct (C5_malformed_entry_stops_the_run Sample.read_csv Sample.get_data_report
                Sample.get_dataframe Sample.get_ratio Sample.get_ratio
                Sample.get_number_of_row_differences Sample.warns
                (py "a=1,b") (py "b") He (or_introl Hm)) as (err & _ & _ & _ & Hex).
    exact (proj1 (Hex (Sample.example "old" "new" "" "a=1,b") eq_refl)).
  - split_and!; [exact He' | exact Hr | exact Hn | reflexivity |].
    destruct (C5_malformed_entry_stops_the_run Sample.read_csv Sample.get_data_report
                Sample.get_dataframe Sample.get_ratio Sample.get_ratio
                Sample.get_number_of_row_differences Sample.warns
                (py "a=x") (py "a=x") He'
                (or_intror (ex_intro _ (py "x") (conj Hr Hn))))
      as (err & _ & _ & _ & Hex).
    exact (proj1 (Hex (Sample.example "old" "new" "" "a=x") eq_refl)).
Defined.

(** C6 fails as stated on the text [a=-1]: it is accepted and the value
    kept for [a] is below zero. *)
Lemma C6_counterexample :
  ∃ m, parse_thresholds (py "a=-1") = Ok m
       ∧ m !! py "a" = Some (Dec true 1 0)
       ∧ float_ge0 (Dec true 1 0) = false.
Proof.
  eexists. split_and!; [vm_compute; reflexivity | vm_compute; reflexivity | reflexivity].
Qed.

(** C6 on the text [a=-1]. *)
Lemma C6_witness :
  parse_thresholds (py "a=-1") = Ok {[ py "a" := Dec true 1 0 ]}
  ∧ ∃ e text, e ∈ entries_of (py "a=-1") ∧ split "=" e !! 0 = Some (py "a")
              ∧ right_hand_side e text ∧ float text = Ok (Dec true 1 0).
Proof.
  assert (parse_thresholds (py "a=-1") = Ok {[ py "a" := Dec true 1 0 ]}) as Hp
    by (vm_compute; reflexivity).
  split; [exact Hp|].
  refine (proj1 (C6_threshold_values Sample.read_csv Sample.get_data_report
    Sample.get_dataframe Sample.get_ratio Sample.get_ratio
    Sample.get_number_of_row_differences Sample.warns _ _ Hp) (py "a") _ _).
  vm_compute. reflexivity.
Defined.

(** C7 on the example sources, grouped by [id]. *)
Lemma C7_witness :
  ∃ report,
    call_get_column_difference_ratio report
    ∈ trace (Sample.run_differences (Sample.csv "id,val" "1,10")
               (Sample.csv "id,other" "1,11") (py "old") (py "new")
               (Some [py "id"]) ∅).
Proof.
  eexists.
  refine (proj1 (proj2 (proj2 (C7_column_ratio_only_with_grouping
    Sample.get_data_report Sample.get_dataframe Sample.get_ratio Sample.get_ratio
    Sample.get_number_of_row_differences Sample.warns
    _ _ _ _ (Some [py "id"]) ∅)) _ _ _ _)).
  - vm_compute. reflexivity.
  - by eexists.
Defined.

(** C9 on the upload tab with a file missing, and on the example tab with
    both names left empty. *)
Lemma C9_witness :
  Sample.run_upload (Sample.upload_without_file "val=0.5")
  = ([st_error (py "Please upload both data sources")], Stop)
  ∧ call_get_data_report (Sample.csv "id,val" "1,10") (Sample.csv "id,other" "1,11")
      [] [] None ∅
    ∈ trace (Sample.run_example (Sample.example "" "" "" "")).
Proof.
  pose proof (C9_upload_tab_checks_inputs Sample.read_csv Sample.get_data_report
    Sample.get_dataframe Sample.get_ratio Sample.get_ratio
    Sample.get_number_of_row_differences Sample.warns) as (_ & Hupload & Hexample).
  split.
  - reflexivity.
  - exact (Hexample (Sample.example "" "" "" "") ∅ _ _ eq_refl eq_refl eq_refl eq_refl).
Defined.

(** C10 on the texts [col=1=2] and [col=1,col=3]. *)
Lemma C10_witness :
  parse_thresholds (py "col=1=2") = parse_thresholds (py "col=1")
  ∧ (∃ m, parse_thresholds (py "col=1=2") = Ok m
          ∧ m !! py "col" = Some (Dec false 1 0))
  ∧ (∃ m, parse_thresholds (py "col=1,col=3") = Ok m
          ∧ m !! py "col" = Some (Dec false 3 0)).
Proof.
  destruct C10_extra_equals_and_repeated_columns as (Hextra & _ & Haccepted & Hlast).
  split_and!.
  - refine (Hextra [] [] (py "col") (py "1") (py "2") (Dec false 1 0) _ _ _ _ _ _ _);
      first [ by constructor | decided | vm_compute; reflexivity ].
  - refine (Haccepted [] [] (py "col") (py "1") (py "2") (Dec false 1 0)
              _ _ _ _ _ _ _ _ _);
      first [ by constructor | decided | vm_compute; reflexivity
            | by intros w Hw%elem_of_nil ].
  - refine (Hlast [] [] [] (py "col") (py "1") (py "3") (Dec false 1 0) (Dec false 3 0)
              _ _ _ _ _ _ _ _ _ _ _);
      first [ by constructor | decided | vm_compute; reflexivity
            | by intros w Hw%elem_of_nil ].
Defined.

(** * Further properties of the page *)

(** ** More on stripping and splitting *)

Lemma lstrip_by_head (p : ascii → bool) (s : str) (c : ascii) (r : str) :
  lstrip_by p s = c :: r → p c = false.
Proof.
  induction s as [|c' s IH]; simpl; [done|].
  destruct (p c') eqn:Hc; [done|]. by intros [= <- _].
Qed.

Lemma lstrip_by_fixed (p : ascii → bool) (s : str) :
  (∀ c r, s = c :: r → p c = false) → lstrip_by p s = s.
Proof.
  destruct s as [|c r]; [done|]. intros H. simpl. by rewrite (H c r).
Qed.

Lemma rstrip_by_last (p : ascii → bool) (s r : str) (c : ascii) :
  rstrip_by p s = r ++ [c] → p c = false.
Proof.
  unfold rstrip_by. intros H. apply (f_equal (@rev ascii)) in H.
  rewrite rev_involutive, rev_app_distr in H. simpl in H.
  by eapply lstrip_by_head.
Qed.

Lemma lstrip_by_idem (p : ascii → bool) (s : str) :
  lstrip_by p (lstrip_by p s) = lstrip_by p s.
Proof.
  apply lstrip_by_fixed. intros c r Heq. by eapply lstrip_by_head.
Qed.

Lemma rstrip_by_idem (p : ascii → bool) (s : str) :
  rstrip_by p (rstrip_by p s) = rstrip_by p s.
Proof. unfold rstrip_by. by rewrite rev_involutive, lstrip_by_idem. Qed.

Lemma strip_by_idem (p : ascii → bool) (s : str) :
  strip_by p (strip_by p s) = strip_by p s.
Proof.
  unfold strip_by.
  destruct (lstrip_by p s) as [|c r] eqn:Hl; [done|].
  pose proof (lstrip_by_head _ _ _ _ Hl) as Hc.
  pose proof (rstrip_by_stop p [] c r Hc) as Hr. simpl in Hr.
  rewrite Hr. simpl. rewrite Hc. rewrite <- Hr. apply rstrip_by_idem.
Qed.

Lemma strip_elem (c : ascii) (s : str) : c ∈ strip s → c ∈ s.
Proof. unfold strip, strip_by. intros H. by eapply lstrip_by_elem, rstrip_by_elem. Qed.

Lemma split_fields (sep : ascii) (s : str) :
  Forall (λ w, sep ∉ w) (split sep s).
Proof.
  induction s as [|c s IH]; simpl.
  - repeat constructor. by apply not_elem_of_nil.
  - case_decide.
    + constructor; [apply not_elem_of_nil | done].
    + destruct (split sep s) as [|w ws].
      * repeat constructor. apply not_elem_of_cons. split; [congruence|apply not_elem_of_nil].
      * rewrite Forall_cons in IH. destruct IH as [Hw Hws]. constructor; [|done].
        apply not_elem_of_cons. split; [congruence | done].
Qed.

Lemma split_length (sep : ascii) (s : str) :
  length (split sep s) = S (length (filter (λ c, c = sep) s)).
Proof.
  induction s as [|c s IH]; simpl; [done|].
  rewrite filter_cons. case_decide; simpl.
  - by rewrite IH.
  - destruct (split sep s) as [|w ws]; simpl in *; [done|]. by rewrite <- IH.
Qed.

Lemma split_app_sep (sep : ascii) (a b : str) :
  split sep (a ++ sep :: b) = split sep a ++ split sep b.
Proof.
  induction a as [|c a IH]; simpl.
  - by rewrite decide_True.
  - case_decide; [by rewrite IH|].
    rewrite IH. destruct (split sep a) as [|w ws] eqn:Hs; [|done].
    by destruct (split_not_nil sep a).
Qed.

(** ** More on the threshold text *)

Lemma dict_comprehension_keeps (l : list str) (d m : gmap str pyfloat) (k : str) :
  dict_comprehension l d = Ok m → is_Some (d !! k) → is_Some (m !! k).
Proof.
  revert d. induction l as [|e l IH]; intros d; simpl.
  - by intros [= ->].
  - case_decide; [|apply IH].
    destruct (threshold_item e) as [[k' v']|err]; simpl; [|done].
    intros Hm Hd. apply (IH _ Hm).
    destruct (decide (k' = k)) as [->|Hne].
    + rewrite lookup_insert_eq. by eexists.
    + by rewrite lookup_insert_ne.
Qed.

Lemma dict_comprehension_has (l : list str) (d m : gmap str pyfloat) (e k : str) :
  e ∈ l → e ≠ [] → split "=" e !! 0 = Some k →
  dict_comprehension l d = Ok m → is_Some (m !! k).
Proof.
  intros Hin Hne Hk. revert d.
  induction l as [|e' l IH]; intros d; [by apply elem_of_nil in Hin|].
  simpl. apply elem_of_cons in Hin as [<- | Hin].
  - rewrite decide_True by done.
    destruct (threshold_item e) as [[k' v']|err] eqn:Hi; simpl; [|done].
    apply threshold_item_inv in Hi as [Hk' _]. simplify_eq.
    intros Hm. apply (dict_comprehension_keeps _ _ _ _ Hm).
    rewrite lookup_insert_eq. by eexists.
  - case_decide; [|by apply IH].
    destruct (threshold_item e') as [[k' v']|err]; simpl; [by apply IH | done].
Qed.

(** X1: the threshold text is accepted exactly when each of its non-empty
    entries has a second field that [float] reads as a number. *)
Theorem X1_thresholds_accepted_iff (raw : str) :
  (∃ m, parse_thresholds raw = Ok m)
  ↔ ∀ e, e ∈ entries_of raw → accepted_entry e.
Proof.
  split.
  - intros [m Hp] e He.
    destruct (threshold_item e) as [[k x]|err] eqn:Hi.
    + apply threshold_item_inv in Hi as (_ & text & Ht & Hf). by exists text, x.
    + destruct (parse_thresholds_raise _ _ _ He Hi) as [err' Hr]. congruence.
  - intros Hall. apply dict_comprehension_accepts.
    apply Forall_forall. intros e He.
    destruct (decide (e = [])) as [->|Hne]; [by left|]. right.
    destruct (Hall e) as (text & x & Ht & Hf).
    { unfold entries_of. by apply list_elem_of_filter. }
    unfold right_hand_side in Ht. unfold threshold_item, getitem.
    destruct (split "=" e) as [|k [|v more]]; simplify_eq/=.
    rewrite Hf. by eexists.
Qed.

(** X2: the exception raised for a threshold text is that of its first
    entry that fails, [IndexError] when that entry has no [=] and
    [ValueError] when its second field is not numeric; the entries after it
    are not looked at. *)
Theorem X2_first_malformed_entry_decides (before after : list str) (bad : str) :
  Forall (λ w, ","%char ∉ w) (before ++ bad :: after) →
  Forall (λ w, strip w = [] ∨ accepted_entry (strip w)) before →
  strip bad ≠ [] →
  (missing_equals (strip bad) →
   parse_thresholds (join "," (before ++ bad :: after)) = Raise IndexError)
  ∧ (∀ text, right_hand_side (strip bad) text → not_numeric text →
     parse_thresholds (join "," (before ++ bad :: after)) = Raise ValueError).
Proof.
  intros Hall Hbefore Hne.
  assert (∀ err, threshold_item (strip bad) = Raise err →
    parse_thresholds (join "," (before ++ bad :: after)) = Raise err) as Hfirst.
  { intros err Hi. rewrite parse_thresholds_fields; [|by destruct before|done].
    rewrite map_app, dict_comprehension_app.
    destruct (dict_comprehension_accepts (map strip before) ∅) as [d ->].
    - apply Forall_forall. intros e [w [-> Hw]]%elem_of_map.
      rewrite Forall_forall in Hbefore.
      destruct (Hbefore _ Hw) as [He | (text & x & Ht & Hf)]; [by left|]. right.
      unfold right_hand_side in Ht. unfold threshold_item, getitem.
      destruct (split "=" (strip w)) as [|k [|v more]]; simplify_eq/=.
      rewrite Hf. by eexists.
    - simpl. rewrite decide_True by done. by rewrite Hi. }
  split.
  - intros Hm. by apply Hfirst, threshold_item_missing.
  - intros text Ht Hn. by eapply Hfirst, threshold_item_not_numeric.
Qed.

(** X3: an entry of blanks, such as the one a doubled or trailing comma
    leaves, is skipped: the text parses as it does without it. *)
Theorem X3_blank_entries_skipped (before after : list str) (w : str) :
  Forall (λ w, ","%char ∉ w) (before ++ after) → blank w →
  parse_thresholds (join "," (before ++ w :: after))
  = parse_thresholds (join "," (before ++ after)).
Proof.
  intros Hall Hw.
  assert (strip w = []) as Hs by (by apply strip_by_blank).
  rewrite parse_thresholds_fields; [|by destruct before|].
  2: { rewrite Forall_app in Hall. destruct Hall as [Hb Ha].
       apply Forall_app. split; [done|]. constructor; [|done].
       by apply blank_no_comma. }
  rewrite map_app, dict_comprehension_app. simpl. rewrite Hs. simpl.
  destruct (decide (before ++ after = [])) as [Hnil|Hnil].
  - apply app_eq_nil in Hnil as [-> ->]. done.
  - rewrite parse_thresholds_fields by done.
    by rewrite map_app, dict_comprehension_app.
Qed.

(** X4: the keys of the mapping built from an accepted text are exactly the
    first fields of its non-empty entries. *)
Theorem X4_threshold_keys (raw : str) (m : gmap str pyfloat) :
  parse_thresholds raw = Ok m →
  ∀ k, is_Some (m !! k)
       ↔ ∃ e, e ∈ entries_of raw ∧ split "=" e !! 0 = Some k.
Proof.
  intros Hp k. split.
  - intros [v Hk].
    destruct (parse_thresholds_lookup _ _ _ _ Hp Hk) as (e & He & Hi).
    apply threshold_item_inv in Hi as [Hkey _]. by exists e.
  - intros (e & He & Hkey). unfold entries_of in He.
    apply list_elem_of_filter in He as [Hne Hin].
    by eapply dict_comprehension_has.
Qed.

Lemma as_dict_lookup_none (items : list (str * pyfloat)) (k : str) :
  k ∉ map fst items → as_dict items !! k = None.
Proof.
  intros Hk. unfold as_dict. rewrite foldl_insert_other by done. apply lookup_empty.
Qed.

(** X5: when the entries name distinct columns, the order in which they are
    written does not matter. *)
Theorem X5_order_of_distinct_columns (entries entries' : list threshold_entry) :
  Forall well_formed entries → entries ≡ₚ entries' →
  NoDup (map fst (threshold_items entries)) →
  parse_thresholds (threshold_text entries')
  = parse_thresholds (threshold_text entries).
Proof.
  intros Hwf Hperm Hnd.
  assert (Forall well_formed entries') as Hwf' by (by rewrite <- Hperm).
  rewrite !parse_thresholds_text by done. f_equal. apply map_eq. intros k.
  assert (threshold_items entries ≡ₚ threshold_items entries') as Hitems
    by (by apply Permutation_map).
  assert (map fst (threshold_items entries) ≡ₚ map fst (threshold_items entries'))
    as Hkeys by (by apply Permutation_map).
  destruct (decide (k ∈ map fst (threshold_items entries))) as [Hin|Hnot].
  - apply elem_of_map in Hin as ([k' x] & -> & Hkx). simpl.
    transitivity (Some x); [|symmetry]; apply as_dict_lookup; try done.
    + by rewrite <- Hkeys.
    + by rewrite <- Hitems.
  - rewrite !as_dict_lookup_none; [done|done|]. by rewrite <- Hkeys.
Qed.

Lemma lstrip_by_app_some (p : ascii → bool) (a b : str) :
  ¬ Forall (λ c, p c = true) a → lstrip_by p (a ++ b) = lstrip_by p a ++ b.
Proof.
  induction a as [|c a IH]; simpl; intros Hn.
  - destruct Hn. constructor.
  - destruct (p c) eqn:Hc; [|done]. apply IH. intros Ha. apply Hn. by constructor.
Qed.

(** X6: a blank written between the column name and [=] is kept: the value
    is stored under the name with that blank, and the trimmed name is not a
    key of the mapping. *)
Theorem X6_blank_before_equals_kept (column value : str) (s : ascii) (x : pyfloat) :
  ","%char ∉ column → "="%char ∉ column →
  ","%char ∉ value → "="%char ∉ value →
  float value = Ok x → isspace s = true → ¬ blank column →
  ∃ m, parse_thresholds (entry_text (column ++ [s]) value) = Ok m
       ∧ m !! (lstrip column ++ [s]) = Some x
       ∧ m !! strip column = None.
Proof.
  intros Hc1 Hc2 Hv1 Hv2 Hx Hs Hnb.
  assert (s ≠ ","%char ∧ s ≠ "="%char) as [Hs1 Hs2].
  { split; intros ->; vm_compute in Hs; discriminate Hs. }
  pose (e := {| entry_column := column ++ [s]; entry_value := value;
                entry_number := x |}).
  assert (Forall well_formed [e]) as Hwf.
  { repeat constructor; simpl; try done.
    - apply not_elem_of_app. split; [done|]. apply not_elem_of_cons.
      split; [done|apply not_elem_of_nil].
    - apply not_elem_of_app. split; [done|]. apply not_elem_of_cons.
      split; [done|apply not_elem_of_nil]. }
  pose proof (parse_thresholds_text _ Hwf) as Hp.
  unfold threshold_text, threshold_items, as_dict in Hp. simpl in Hp.
  unfold lstrip in Hp. rewrite lstrip_by_app_some in Hp by done.
  eexists. split; [exact Hp|]. split.
  - apply lookup_insert_eq.
  - rewrite lookup_insert_ne; [apply lookup_empty|].
    unfold strip, strip_by. intros Heq. symmetry in Heq.
    apply rstrip_by_last in Heq. congruence.
Qed.

Lemma strip_by_split (p : ascii → bool) (s : str) :
  ∃ a b, s = a ++ strip_by p s ++ b
         ∧ Forall (λ c, p c = true) a ∧ Forall (λ c, p c = true) b.
Proof.
  destruct (lstrip_by_split p s) as (a & Ha & Hfa).
  destruct (rstrip_by_split p (lstrip_by p s)) as (b & Hb & Hfb).
  exists a, b. split; [|done]. unfold strip_by. congruence.
Qed.

Lemma float_padded (a value b : str) (x : pyfloat) :
  Forall (λ c, float_space c = true) a → Forall (λ c, float_space c = true) b →
  float value = Ok x → float (a ++ value ++ b) = Ok x.
Proof.
  intros Ha Hb Hx. destruct (float_text _ _ Hx) as [Hne Hall].
  destruct (strip_by_split float_space value) as (a' & b' & Hv & Ha' & Hb').
  assert (strip_by float_space (a ++ value ++ b) = strip_by float_space value) as Heq.
  { rewrite Hv at 1.
    replace (a ++ (a' ++ strip_by float_space value ++ b') ++ b)
      with ((a ++ a') ++ strip_by float_space value ++ (b' ++ b))
      by (by rewrite <- !app_assoc).
    apply strip_by_clean; [by apply Forall_app|by apply Forall_app|done|].
    eapply Forall_impl; [exact Hall|]. apply isspace_float_space. }
  unfold float in *. by rewrite Heq.
Qed.

Lemma float_space_not_separator (c : ascii) :
  float_space c = true → c ≠ ","%char ∧ c ≠ "="%char.
Proof. intros H. split; intros ->; vm_compute in H; discriminate H. Qed.

Lemma float_rejects_separator (s : ascii) (t : str) :
  isspace s = true → float_space s = false → float (s :: t) = Raise ValueError.
Proof.
  intros Hs Hf.
  destruct (float (s :: t)) as [x|e] eqn:Hx; [|by rewrite (float_raises _ _ Hx)].
  destruct (float_text _ _ Hx) as [_ Hall].
  pose proof (rstrip_by_stop float_space [] s t Hf) as Hr. simpl in Hr.
  unfold strip_by in Hall. simpl in Hall. rewrite Hf, Hr in Hall.
  rewrite Forall_cons in Hall. destruct Hall as [Hs' _]. congruence.
Qed.

(** X7: the blanks [float] itself drops (TAB, LF, VT, FF, CR, SPACE, NEL,
    NBSP) may surround a numeric value, as in [a= 1], without changing what
    the entry contributes.  One of the separators FS, GS, RS, US right
    after [=], a blank for [strip] and none for [float], makes the text
    fail with [ValueError]. *)
Theorem X7_blanks_around_value_harmless (column value : str) (x : pyfloat) :
  ","%char ∉ column → "="%char ∉ column →
  ","%char ∉ value → "="%char ∉ value →
  float value = Ok x →
  (∀ (before after : list str) (left right : str),
     Forall (λ w, ","%char ∉ w) (before ++ after) →
     Forall (λ c, float_space c = true) left →
     Forall (λ c, float_space c = true) right →
     parse_thresholds
       (join "," (before ++ entry_text column (left ++ value ++ right) :: after))
     = parse_thresholds (join "," (before ++ entry_text column value :: after)))
  ∧ (∀ s : ascii, isspace s = true → float_space s = false →
       parse_thresholds (entry_text column (s :: value)) = Raise ValueError).
Proof.
  intros Hc1 Hc2 Hv1 Hv2 Hx. split.
  - intros before after left right Hall Hl Hr.
    assert (∀ sep : ascii, (∀ c, float_space c = true → c ≠ sep) → sep ∉ value →
              sep ∉ left ++ value ++ right) as Hpad.
    { intros sep Hsep Hv. rewrite !not_elem_of_app. rewrite Forall_forall in Hl, Hr.
      split_and!; [|done|]; intros Hin.
      - by apply (Hsep sep (Hl _ Hin)).
      - by apply (Hsep sep (Hr _ Hin)). }
    assert (","%char ∉ left ++ value ++ right) as Hp1.
    { apply Hpad; [|done]. intros c Hc. by apply float_space_not_separator. }
    assert ("="%char ∉ left ++ value ++ right) as Hp2.
    { apply Hpad; [|done]. intros c Hc. by apply float_space_not_separator. }
    assert (Forall (λ w, ","%char ∉ w) before ∧ Forall (λ w, ","%char ∉ w) after)
      as [Hb Ha] by (by apply Forall_app).
    rewrite !parse_thresholds_fields;
      [|by destruct before|apply Forall_app; split; [done|constructor; [|done]];
                            by apply entry_text_no_comma
       |by destruct before|apply Forall_app; split; [done|constructor; [|done]];
                            by apply entry_text_no_comma].
    rewrite !map_app, !dict_comprehension_app.
    destruct (dict_comprehension (map strip before) ∅) as [d|err]; simpl; [|done].
    destruct (threshold_item_entry column value x) as [Hne1 ->]; [done..|].
    destruct (threshold_item_entry column (left ++ value ++ right) x) as [Hne2 ->];
      [done|done|by apply float_padded|].
    by rewrite !decide_True by done.
  - intros s Hs Hf.
    assert (s ≠ ","%char ∧ s ≠ "="%char) as [Hs1 Hs2].
    { split; intros ->; vm_compute in Hs; discriminate Hs. }
    destruct (float_text _ _ Hx) as [Hne Hall].
    destruct (strip_by_split float_space value) as (a & b & Hv & Ha & Hb).
    set (t := strip_by float_space value) in *.
    assert (rstrip (s :: value) = s :: a ++ t) as Hrs.
    { rewrite Hv. apply (rstrip_by_clean isspace (s :: a) t b); [|done..].
      eapply Forall_impl; [exact Hb|]. apply float_space_isspace. }
    assert ("="%char ∉ s :: a ++ t) as Heq.
    { apply not_elem_of_cons. split; [done|]. intros Hin. apply Hv2.
      rewrite Hv. rewrite app_assoc. apply elem_of_app. by left. }
    unfold parse_thresholds.
    rewrite split_no_sep
      by (apply entry_text_no_comma; [done|by apply not_elem_of_cons]).
    simpl. rewrite strip_entry, Hrs.
    rewrite decide_True by (unfold entry_text; by destruct (lstrip column)).
    rewrite (threshold_item_fields _ (lstrip column) (s :: a ++ t) []).
    + by rewrite float_rejects_separator.
    + unfold entry_text. rewrite split_app.
      * by rewrite split_no_sep.
      * intros H. apply Hc2. by eapply lstrip_by_elem.
Qed.

(** ** More on the grouping-column text *)

(** X8: the names passed as grouping columns hold no comma and no blank at
    either end, and there is one more of them than there are commas in the
    text. *)
Theorem X8_grouping_columns_trimmed (raw : str) (cols : list str) :
  parse_grouping_columns raw = Some cols →
  Forall (λ c, (","%char ∉ c) ∧ strip c = c) cols
  ∧ length cols = S (commas raw).
Proof.
  unfold parse_grouping_columns. case_decide; [done|]. intros [= <-]. split.
  - apply Forall_forall. intros c [w [-> Hw]]%elem_of_map. split.
    + intros Hin%strip_elem. pose proof (split_fields "," raw) as Hf.
      rewrite Forall_forall in Hf. by apply (Hf w).
    + apply strip_by_idem.
  - rewrite length_map. apply split_length.
Qed.

(** X9: names that are already trimmed and hold no comma come back as they
    are from their comma-separated text, unless they are the single empty
    name. *)
Theorem X9_grouping_columns_round_trip (names : list str) :
  names ≠ [] → names ≠ [[]] →
  Forall (λ c, (","%char ∉ c) ∧ strip c = c) names →
  parse_grouping_columns (join "," names) = Some names.
Proof.
  intros Hne Hne' Hall. unfold parse_grouping_columns.
  rewrite split_join; [|done|by eapply Forall_impl; [exact Hall|intros c [? _]]].
  assert (map strip names = names) as ->.
  { clear Hne Hne'. induction Hall as [|c names [_ Hc] _ IH]; simpl; congruence. }
  by rewrite decide_False.
Qed.

(** X10: a trailing comma adds an empty name at the end of the grouping
    columns, where the threshold text would skip the empty entry. *)
Theorem X10_trailing_comma_adds_empty_name (raw : str) :
  parse_grouping_columns (raw ++ [","%char])
  = Some (map strip (split "," raw) ++ [[]]).
Proof.
  unfold parse_grouping_columns. rewrite split_app_sep, map_app. simpl.
  rewrite decide_False; [done|].
  destruct (split "," raw) as [|w ws] eqn:Hs; [by destruct (split_not_nil "," raw)|].
  simpl. intros [= _ Heq]. by destruct (map strip ws).
Qed.

(** ** More on the runs of the page *)
Section PageMore.
Context {DataFrame UploadedFile Table Ratios : Type}.
Variable read_csv : csv_source UploadedFile → result DataFrame.
Variable get_data_report :
  DataFrame → DataFrame → str → str → option (list str) →
  gmap str pyfloat → result (DataReport * list str).
Variable get_dataframe : DataReport → Table.
Variable get_ratio_of_differences_per_source : DataReport → Ratios.
Variable get_column_difference_ratio : DataReport → Ratios.
Variable get_number_of_row_differences : DataReport → Z.
Variable warns : derivation → DataReport → list str → list str.

Local Abbreviation get_differences :=
  (@Server.get_differences DataFrame UploadedFile Table Ratios
     get_data_report get_dataframe
     get_ratio_of_differences_per_source get_column_difference_ratio
     get_number_of_row_differences warns).
Local Abbreviation upload_tab :=
  (@Server.upload_tab DataFrame UploadedFile Table Ratios
     read_csv get_data_report get_dataframe
     get_ratio_of_differences_per_source get_column_difference_ratio
     get_number_of_row_differences warns).
Local Abbreviation example_tab :=
  (@Server.example_tab DataFrame UploadedFile Table Ratios
     read_csv get_data_report get_dataframe
     get_ratio_of_differences_per_source get_column_difference_ratio
     get_number_of_row_differences warns).
Local Abbreviation page :=
  (@Server.page DataFrame UploadedFile Table Ratios
     read_csv get_data_report get_dataframe
     get_ratio_of_differences_per_source get_column_difference_ratio
     get_number_of_row_differences warns).

Lemma warnings_shown_map (w : list str) :
  warnings_shown (map (@st_warning DataFrame UploadedFile Table Ratios) w) = w.
Proof. induction w as [|m w IH]; simpl; [done|]. by rewrite IH. Qed.

(** X11: [get_differences] adds no failure of its own: it ends normally
    when the library returns a report, and otherwise with the library's
    exception, having rendered nothing but the spinner; it never stops the
    script. *)
Theorem X11_get_differences_ending df1 df2 n1 n2 g th :
  (ending (get_differences df1 df2 n1 n2 g th) = Done tt
   ↔ ∃ report w, get_data_report df1 df2 n1 n2 g th = Ok (report, w))
  ∧ (∀ e, ending (get_differences df1 df2 n1 n2 g th) = Fail e
          ↔ get_data_report df1 df2 n1 n2 g th = Raise e)
  ∧ (∀ e, get_data_report df1 df2 n1 n2 g th = Raise e →
          trace (get_differences df1 df2 n1 n2 g th)
          = [st_spinner (py "Generating report...");
             call_get_data_report df1 df2 n1 n2 g th])
  ∧ ending (get_differences df1 df2 n1 n2 g th) ≠ Stop.
Proof.
  destruct (get_data_report df1 df2 n1 n2 g th) as [[report w]|e] eqn:Hr.
  - rewrite (get_differences_ok _ _ _ _ _ _ _ _ _ _ _ _ _ _ Hr). unfold ending. simpl.
    split_and!; [|done..]. split; [|done]. intros _. by exists report, w.
  - rewrite (get_differences_raise _ _ _ _ _ _ _ _ _ _ _ _ _ Hr). unfold ending, trace. simpl.
    split_and!; [|intros e'; split; congruence|done|done].
    split; [done|]. by intros (report & w & [=]).
Qed.

(** X12: with grouping columns and a report, what [st.warning] renders is
    the list [catch_warnings] recorded over the whole block, each message
    once and in the order recorded: the warnings of [get_data_report]
    first, then those of the later library calls.  Without grouping
    columns, or when the library raises, nothing is rendered. *)
Theorem X12_warnings_in_order df1 df2 n1 n2 g th :
  warnings_shown (trace (get_differences df1 df2 n1 n2 g th))
  = match get_data_report df1 df2 n1 n2 g th, g with
    | Ok (report, w), Some _ => recorded warns report w
    | _, _ => []
    end.
Proof.
  destruct (get_data_report df1 df2 n1 n2 g th) as [[report w]|e] eqn:Hr.
  - rewrite (get_differences_ok _ _ _ _ _ _ _ _ _ _ _ _ _ _ Hr). unfold trace. simpl.
    destruct g; unfold report_part, grouping_part; simpl; [|done].
    apply warnings_shown_map.
  - rewrite (get_differences_raise _ _ _ _ _ _ _ _ _ _ _ _ _ Hr). by destruct g.
Qed.

(** X13: one run of [get_differences] calls the library's entry point
    exactly once, on the arguments it was given, and reads no CSV. *)
Theorem X13_one_report_call df1 df2 n1 n2 g th :
  report_calls (trace (get_differences df1 df2 n1 n2 g th))
  = [(df1, df2, n1, n2, g, th)]
  ∧ csv_reads (trace (get_differences df1 df2 n1 n2 g th)) = [].
Proof.
  assert (∀ w : list str,
    report_calls (map (@st_warning DataFrame UploadedFile Table Ratios) w) = []
    ∧ csv_reads (map (@st_warning DataFrame UploadedFile Table Ratios) w) = [])
    as Hw by (induction w as [|m w [IH1 IH2]]; by simpl).
  destruct (get_data_report df1 df2 n1 n2 g th) as [[report w]|e] eqn:Hr.
  - rewrite (get_differences_ok _ _ _ _ _ _ _ _ _ _ _ _ _ _ Hr). unfold trace. simpl.
    destruct g; unfold report_part, grouping_part; simpl; [|done].
    split; [f_equal; apply (proj1 (Hw _)) | apply (proj2 (Hw _))].
  - by rewrite (get_differences_raise _ _ _ _ _ _ _ _ _ _ _ _ _ Hr).
Qed.

(** X14: when the count the library returns for the report is between 0
    and the number of rows of the two sources, the metric is rendered with
    a delta between 0 and 100. *)
Theorem X14_delta_between_0_and_100 df1 df2 n1 n2 g th
    (report : DataReport) (w : list str) :
  get_data_report df1 df2 n1 n2 g th = Ok (report, w) →
  (0 ≤ get_number_of_row_differences report
     ≤ df0_length report + df1_length report)%Z →
  (∃ value color delta,
     st_metric (py "Number of Row Differences") value color delta
       ∈ trace (get_differences df1 df2 n1 n2 g th))
  ∧ (∀ label value color delta,
       st_metric label value color delta
         ∈ trace (get_differences df1 df2 n1 n2 g th) →
       (0 <= delta)%Q ∧ (delta <= 100)%Q).
Proof.
  intros Hr [H0 Hn].
  assert ((0 <= delta_percent (get_number_of_row_differences report) report)%Q
          ∧ (delta_percent (get_number_of_row_differences report) report <= 100)%Q)
    as Hbound.
  { assert (0 < total_rows report ∧
            get_number_of_row_differences report ≤ total_rows report)%Z as [Ht Hle]
      by (unfold total_rows; case_decide; lia).
    unfold delta_percent.
    destruct (total_rows report) as [|t|t]; [lia| |lia].
    destruct (get_number_of_row_differences report) as [|n|n]; [| |lia].
    - split; vm_compute; discriminate.
    - unfold Qle, Qdiv, Qmult, Qinv, inject_Z. simpl. split; lia. }
  rewrite (get_differences_ok _ _ _ _ _ _ _ _ _ _ _ _ _ _ Hr). unfold trace. simpl.
  split.
  - do 3 eexists. unfold report_part. found.
  - intros label value color delta H.
    destruct g; unfold report_part, grouping_part in H; in_trace H;
      by simplify_eq.
Qed.

(** X15: in the upload tab a missing file is reported before a missing
    name: with a file missing the message asks for both data sources,
    whatever the names; with both files there and a name empty it asks for
    the names. *)
Theorem X15_upload_messages (f : upload_form) (m : gmap str pyfloat) :
  calculate_differences_upload f = true →
  parse_thresholds (thresholds_upload f) = Ok m →
  (df0_uploader f = None ∨ df1_uploader f = None →
   upload_tab f = ([st_error (py "Please upload both data sources")], Stop))
  ∧ (is_Some (df0_uploader f) → is_Some (df1_uploader f) →
     df0_name_upload f = [] ∨ df1_name_upload f = [] →
     upload_tab f
     = ([st_error (py "Please enter names for both data sources")], Stop)).
Proof.
  intros Hc Hp. unfold Server.upload_tab. rewrite Hc, Hp. simpl. split.
  - intros [-> | H1]; [done|]. rewrite H1. by destruct (df0_uploader f).
  - intros [file0 ->] [file1 ->] Hnames. by rewrite decide_True.
Qed.

(** X16: the sources are not swapped on the way to the library: the first
    argument is what [read_csv] made of the first file or text, the second
    what it made of the second, and the names follow in the same order. *)
Theorem X16_sources_in_order :
  (∀ (f : upload_form) a b c d g th,
     call_get_data_report a b c d g th ∈ trace (upload_tab f) →
     ∃ file0 file1,
       df0_uploader f = Some file0 ∧ df1_uploader f = Some file1 ∧
       read_csv (Uploaded file0) = Ok a ∧ read_csv (Uploaded file1) = Ok b ∧
       c = df0_name_upload f ∧ d = df1_name_upload f)
  ∧ (∀ (f : example_form) a b c d g th,
       call_get_data_report a b c d g th ∈ trace (example_tab f) →
       read_csv (StringIO (df0_data_raw f)) = Ok a ∧
       read_csv (StringIO (df1_data_raw f)) = Ok b ∧
       c = df0_name_raw f ∧ d = df1_name_raw f).
Proof.
  split.
  - intros f a b c d g th H.
    pose proof H as (Hc & Hr & Hp & _)%upload_tab_report_call.
    destruct Hr as ([file0 H0] & [file1 H1] & Hn0 & Hn1).
    rewrite (upload_tab_accepted _ _ _ _ _ _ _ _ th file0 file1) in H by done.
    exists file0, file1.
    destruct (read_csv (Uploaded file0)) as [d1|e]; [|in_trace H].
    destruct (read_csv (Uploaded file1)) as [d2|e]; [|in_trace H].
    unfold trace at 1 in H. simpl in H.
    apply elem_of_cons in H as [H|H]; [done|].
    apply elem_of_cons in H as [H|H]; [done|].
    apply get_differences_report_call in H as (-> & -> & -> & -> & _).
    by split_and!.
  - intros f a b c d g th H.
    pose proof H as (Hc & Hp & _)%example_tab_report_call.
    rewrite (example_tab_accepted _ _ _ _ _ _ _ _ th) in H by done.
    destruct (read_csv (StringIO (df0_data_raw f))) as [d1|e]; [|in_trace H].
    destruct (read_csv (StringIO (df1_data_raw f))) as [d2|e]; [|in_trace H].
    unfold trace at 1 in H. simpl in H.
    apply elem_of_cons in H as [H|H]; [done|].
    apply elem_of_cons in H as [H|H]; [done|].
    apply get_differences_report_call in H as (-> & -> & -> & -> & _).
    by split_and!.
Qed.

(** X17: in the example tab a text that [read_csv] rejects ends the run
    with its exception before the library is called; when it is the first
    text, the second is not read. *)
Theorem X17_example_csv_failure (f : example_form) (m : gmap str pyfloat) (e : exn) :
  calculate_differences_raw f = true →
  parse_thresholds (thresholds_raw f) = Ok m →
  (read_csv (StringIO (df0_data_raw f)) = Raise e →
   example_tab f = ([call_read_csv (StringIO (df0_data_raw f))], Fail e))
  ∧ (∀ d1, read_csv (StringIO (df0_data_raw f)) = Ok d1 →
      read_csv (StringIO (df1_data_raw f)) = Raise e →
      example_tab f
      = ([call_read_csv (StringIO (df0_data_raw f));
          call_read_csv (StringIO (df1_data_raw f))], Fail e)).
Proof.
  intros Hc Hp. rewrite (example_tab_accepted _ _ _ _ _ _ _ _ m) by done. split.
  - by intros ->.
  - by intros d1 -> ->.
Qed.

(** X18: the same in the upload tab, once both files and both names are
    there. *)
Theorem X18_upload_csv_failure (f : upload_form) (m : gmap str pyfloat)
    (file0 file1 : UploadedFile) (e : exn) :
  calculate_differences_upload f = true →
  parse_thresholds (thresholds_upload f) = Ok m →
  df0_uploader f = Some file0 → df1_uploader f = Some file1 →
  df0_name_upload f ≠ [] → df1_name_upload f ≠ [] →
  (read_csv (Uploaded file0) = Raise e →
   upload_tab f = ([call_read_csv (Uploaded file0)], Fail e))
  ∧ (∀ d1, read_csv (Uploaded file0) = Ok d1 →
      read_csv (Uploaded file1) = Raise e →
      upload_tab f
      = ([call_read_csv (Uploaded file0); call_read_csv (Uploaded file1)], Fail e)).
Proof.
  intros Hc Hp H0 H1 Hn0 Hn1.
  rewrite (upload_tab_accepted _ _ _ _ _ _ _ _ m file0 file1) by done. split.
  - by intros ->.
  - by intros d1 -> ->.
Qed.

(** X19: the two tabs share one run of the script.  When the upload tab
    ends at [st.stop()] or with an exception, nothing of the example tab is
    run; when its button is not pressed, the run is that of the example
    tab. *)
Theorem X19_upload_tab_can_end_the_page (u : upload_form) (x : example_form) :
  (ending (upload_tab u) ≠ Done tt → page u x = upload_tab u)
  ∧ (calculate_differences_upload u = false → page u x = example_tab x)
  ∧ (ending (upload_tab u) = Done tt →
     page u x = (trace (upload_tab u) ++ trace (example_tab x),
                 ending (example_tab x))).
Proof.
  unfold Server.page. split_and!.
  - destruct (Server.upload_tab _ _ _ _ _ _ _ u) as [tr [[]| |e]]; simpl; [done|done..].
  - intros Hc. rewrite upload_tab_idle by done. simpl.
    by destruct (Server.example_tab _ _ _ _ _ _ _ x).
  - destruct (Server.upload_tab _ _ _ _ _ _ _ u) as [tr [[]| |e]]; simpl; [|done..].
    intros _. by destruct (Server.example_tab _ _ _ _ _ _ _ x).
Qed.
End PageMore.

(** * The further properties on concrete inputs *)

(** X2 on the text [a=1,b,c=x]: the entry [b] fails first. *)
Lemma X2_witness :
  missing_equals (strip (py "b"))
  ∧ parse_thresholds (py "a=1,b,c=x") = Raise IndexError.
Proof.
  assert (missing_equals (strip (py "b"))) as Hm by (unfold missing_equals; decided).
  split; [exact Hm|].
  refine (proj1 (X2_first_malformed_entry_decides [py "a=1"] [py "c=x"] (py "b") _ _ _) Hm).
  - repeat apply Forall_cons_2; [decided..|apply Forall_nil_2].
  - apply Forall_cons_2; [|apply Forall_nil_2]. right.
    exists (py "1"), (Dec false 1 0). split; vm_compute; reflexivity.
  - intros H. vm_compute in H. discriminate H.
Defined.

(** X3 on the text [a=1, ,b=2]. *)
Lemma X3_witness :
  blank (py " ")
  ∧ parse_thresholds (py "a=1, ,b=2") = parse_thresholds (py "a=1,b=2").
Proof.
  assert (blank (py " ")) as Hb by (unfold blank; decided).
  split; [exact Hb|].
  refine (X3_blank_entries_skipped [py "a=1"] [py "b=2"] (py " ") _ Hb).
  repeat apply Forall_cons_2; [decided..|apply Forall_nil_2].
Defined.

(** X4 on the text [a=1]. *)
Lemma X4_witness :
  parse_thresholds (py "a=1") = Ok {[ py "a" := Dec false 1 0 ]}
  ∧ (is_Some (({[ py "a" := Dec false 1 0 ]} : gmap str pyfloat) !! py "a")
     ↔ ∃ e, e ∈ entries_of (py "a=1") ∧ split "=" e !! 0 = Some (py "a")).
Proof.
  assert (parse_thresholds (py "a=1") = Ok {[ py "a" := Dec false 1 0 ]}) as Hp
    by (vm_compute; reflexivity).
  split; [exact Hp|].
  exact (X4_threshold_keys (py "a=1") _ Hp (py "a")).
Defined.

(** X5 on the texts [b=2,a=1] and [a=1,b=2]. *)
Lemma X5_witness :
  parse_thresholds (py "b=2,a=1") = parse_thresholds (py "a=1,b=2").
Proof.
  pose (a := {| entry_column := py "a"; entry_value := py "1";
                entry_number := Dec false 1 0 |}).
  pose (b := {| entry_column := py "b"; entry_value := py "2";
                entry_number := Dec false 2 0 |}).
  refine (X5_order_of_distinct_columns [a; b] [b; a] _ _ _).
  - repeat apply Forall_cons_2; [| |apply Forall_nil_2];
      (split_and!; [decided..|vm_compute; reflexivity]).
  - apply perm_swap.
  - decided.
Defined.

(** X6 on the text [a =1]. *)
Lemma X6_witness :
  ¬ blank (py "a")
  ∧ ∃ m, parse_thresholds (py "a =1") = Ok m
         ∧ m !! py "a " = Some (Dec false 1 0)
         ∧ m !! py "a" = None.
Proof.
  assert (¬ blank (py "a")) as Hb by (unfold blank; decided).
  split; [exact Hb|].
  refine (X6_blank_before_equals_kept (py "a") (py "1") " " (Dec false 1 0)
            _ _ _ _ _ _ Hb); first [decided | vm_compute; reflexivity].
Defined.

(** X7 on the texts [a= 1] and [a=1], and on [a=] followed by FS and [1]. *)
Lemma X7_witness :
  parse_thresholds (py "a= 1") = parse_thresholds (py "a=1")
  ∧ parse_thresholds (py "a=" ++ "028"%char :: py "1") = Raise ValueError.
Proof.
  destruct (X7_blanks_around_value_harmless (py "a") (py "1") (Dec false 1 0))
    as [Hpad Hsep]; first [decided | vm_compute; reflexivity | idtac].
  split.
  - refine (Hpad [] [] (py " ") [] _ _ _); by repeat constructor.
  - exact (Hsep "028"%char eq_refl eq_refl).
Defined.

(** X8 on the text [ id , val]. *)
Lemma X8_witness :
  parse_grouping_columns (py " id , val") = Some [py "id"; py "val"]
  ∧ length [py "id"; py "val"] = S (commas (py " id , val")).
Proof.
  assert (parse_grouping_columns (py " id , val") = Some [py "id"; py "val"]) as Hp
    by reflexivity.
  split; [exact Hp|].
  exact (proj2 (X8_grouping_columns_trimmed _ _ Hp)).
Defined.

(** X9 on the names [id] and [val]. *)
Lemma X9_witness :
  parse_grouping_columns (py "id,val") = Some [py "id"; py "val"].
Proof.
  refine (X9_grouping_columns_round_trip [py "id"; py "val"] _ _ _).
  - discriminate.
  - discriminate.
  - repeat apply Forall_cons_2; [| |apply Forall_nil_2];
      (split; [decided | vm_compute; reflexivity]).
Defined.

(** X12 on the example sources, grouped by [id]: the warning of the report
    and the one of the count, which the second call does not repeat. *)
Lemma X12_witness :
  warnings_shown
    (trace (Sample.run_differences (Sample.csv "id,val" "1,10")
              (Sample.csv "id,other" "1,11") (py "old") (py "new")
              (Some [py "id"]) ∅))
  = [py "columns differ between the sources"; py "row differences were counted"].
Proof.
  exact (X12_warnings_in_order Sample.get_data_report Sample.get_dataframe
    Sample.get_ratio Sample.get_ratio Sample.get_number_of_row_differences
    Sample.warns (UploadedFile := str)
    (Sample.csv "id,val" "1,10") (Sample.csv "id,other" "1,11")
    (py "old") (py "new") (Some [py "id"]) ∅).
Defined.

(** X14 on the example sources: one row differs, out of two. *)
Lemma X14_witness :
  ∃ value color delta,
    st_metric (py "Number of Row Differences") value color delta
    ∈ trace (Sample.run_differences (Sample.csv "id,val" "1,10")
               (Sample.csv "id,other" "1,11") (py "old") (py "new") None ∅).
Proof.
  edestruct (X14_delta_between_0_and_100 Sample.get_data_report Sample.get_dataframe
    Sample.get_ratio Sample.get_ratio Sample.get_number_of_row_differences
    Sample.warns (UploadedFile := str)
    (Sample.csv "id,val" "1,10") (Sample.csv "id,other" "1,11")
    (py "old") (py "new") None ∅) as [Hmetric _].
  - vm_compute. reflexivity.
  - vm_compute. split; discriminate.
  - exact Hmetric.
Defined.

(** X15 on the upload tab with the second file missing. *)
Lemma X15_witness :
  Sample.run_upload (Sample.upload_without_file "val=0.5")
  = ([st_error (py "Please upload both data sources")], Stop).
Proof.
  refine (proj1 (X15_upload_messages Sample.read_csv Sample.get_data_report
    Sample.get_dataframe Sample.get_ratio Sample.get_ratio
    Sample.get_number_of_row_differences Sample.warns
    (Sample.upload_without_file "val=0.5") {[ py "val" := Dec false 5 (-1) ]}
    eq_refl _) (or_intror eq_refl)).
  vm_compute. reflexivity.
Defined.

(** X17 on the example tab with the first text left empty. *)
Lemma X17_witness :
  Sample.run_example Sample.example_without_data
  = ([call_read_csv (StringIO [])], Fail (LibraryError (py "empty CSV"))).
Proof.
  exact (proj1 (X17_example_csv_failure Sample.read_csv Sample.get_data_report
    Sample.get_dataframe Sample.get_ratio Sample.get_ratio
    Sample.get_number_of_row_differences Sample.warns
    Sample.example_without_data ∅ (LibraryError (py "empty CSV"))
    eq_refl eq_refl) eq_refl).
Defined.

(** X18 on the upload tab with an empty first file. *)
Lemma X18_witness :
  upload_tab Sample.read_csv_strict Sample.get_data_report
    Sample.get_dataframe Sample.get_ratio Sample.get_ratio
    Sample.get_number_of_row_differences Sample.warns Sample.upload_empty_file
  = ([call_read_csv (Uploaded [])], Fail (LibraryError (py "empty CSV"))).
Proof.
  refine (proj1 (X18_upload_csv_failure Sample.read_csv_strict Sample.get_data_report
    Sample.get_dataframe Sample.get_ratio Sample.get_ratio
    Sample.get_number_of_row_differences Sample.warns
    Sample.upload_empty_file ∅ [] (Sample.csv "id,val" "1,10")
    (LibraryError (py "empty CSV")) eq_refl eq_refl eq_refl eq_refl _ _) eq_refl);
    discriminate.
Defined.
